(** * PDF accessibility pipeline: quota gate, cost estimator, approval gate
      and workflow definition, embedded from the Python sources.

    - [Py]        Python values the handlers pass around, exceptions and a
                  small state-and-exception monad with [try_except];
    - [Float]     binary64 arithmetic as Python performs it ([/] on ints,
                  [float()], [int()], [round(x, n)]), over [SpecFloat];
    - [CloudWatch] utils/cloudwatch_metrics.py;
    - [Quota]     utils/quota_monitor.py;
    - [Analyzer]  lambda/pdf_analyzer/main.py;
    - [Approval]  lambda/start_remediation/main.py;
    - [Workflow]  the Step Functions definition built in app.py;
    - [Intake]    the storing of an analysis and the handler of
                  lambda/pdf_analyzer/main.py;
    - [Stack]     the bucket notification of app.py. *)

From Stdlib Require Import ZArith String Ascii List Bool Lia.
From Stdlib Require Import Floats.SpecFloat.
From stdpp Require Import gmap strings list pretty.

Open Scope string_scope.
Open Scope Z_scope.

(* ===================================================================== *)
(** * Python runtime: exceptions and the handler monad                    *)
(* ===================================================================== *)

Module Py.

(** Exceptions the modelled code can meet.  [ClientError] stands for any
    error raised by a boto3 call (service down, throttling, bad key). *)
Inductive exn : Type :=
| ClientError (service : string)
| KeyError (key : string)
| ZeroDivisionError
| OverflowError
| ValueError
| TypeError
| IndexError
| JSONDecodeError
| PdfReadError.

(** [str(e)], as the handlers put it in their error bodies. *)
Definition str_exn (e : exn) : string :=
  match e with
  | ClientError s => "An error occurred when calling " +:+ s
  | KeyError k => "'" +:+ k +:+ "'"
  | ZeroDivisionError => "division by zero"
  | OverflowError => "int too large to convert to float"
  | ValueError => "cannot convert float NaN to integer"
  | TypeError => "unsupported operand type"
  | IndexError => "sequence index out of range"
  | JSONDecodeError => "Expecting value"
  | PdfReadError => "EOF marker not found"
  end.

Inductive outcome (A : Type) : Type :=
| Ok (a : A)
| Raise (e : exn).
Arguments Ok {A} a.
Arguments Raise {A} e.

Definition is_ok {A} (o : outcome A) : bool :=
  match o with Ok _ => true | Raise _ => false end.

(** Sequencing of pure steps that may raise. *)
Definition and_then {A B} (o : outcome A) (k : A -> outcome B) : outcome B :=
  match o with Ok a => k a | Raise e => Raise e end.

(** A computation over a store [S]: it returns or raises, and the store
    it leaves behind is kept in both cases (Python does not undo side
    effects when an exception unwinds). *)
Definition M (S A : Type) : Type := S -> outcome A * S.

Section Monad.
Context {S : Type}.

Definition ret {A} (a : A) : M S A := fun s => (Ok a, s).

Definition raise {A} (e : exn) : M S A := fun s => (Raise e, s).

Definition bind {A B} (c : M S A) (k : A -> M S B) : M S B :=
  fun s => match c s with
           | (Ok a, s') => k a s'
           | (Raise e, s') => (Raise e, s')
           end.

(** [try: c  except Exception as e: h e] *)
Definition try_except {A} (c : M S A) (h : exn -> M S A) : M S A :=
  fun s => match c s with
           | (Ok a, s') => (Ok a, s')
           | (Raise e, s') => h e s'
           end.

Definition get : M S S := fun s => (Ok s, s).
Definition modify (f : S -> S) : M S unit := fun s => (Ok tt, f s).

(** A pure step that may raise. *)
Definition lift_outcome {A} (o : outcome A) : M S A := fun s => (o, s).
End Monad.

(** Local variables of a function body: [with_local l0 c] runs [c] with
    the extra mutable cell initialised to [l0] and hands back its final
    content. *)
Definition with_local {S L A} (l0 : L) (c : M (S * L) A) : M S (A * L) :=
  fun s => match c (s, l0) with
           | (Ok a, (s', l')) => (Ok (a, l'), s')
           | (Raise e, (s', _)) => (Raise e, s')
           end.

(** Run a computation on the outer store from inside a body with locals. *)
Definition outer {S L A} (c : M S A) : M (S * L) A :=
  fun sl => match c (fst sl) with
            | (r, s') => (r, (s', snd sl))
            end.

Definition set_local {S L} (f : L -> L) : M (S * L) unit :=
  fun sl => (Ok tt, (fst sl, f (snd sl))).

(** Truthiness of [str] and [Optional[str]]. *)
Definition truthy_str (s : string) : bool :=
  match s with EmptyString => false | _ => true end.

Definition truthy_opt_str (o : option string) : bool :=
  match o with Some s => truthy_str s | None => false end.

End Py.

Import Py.

Declare Scope py_scope.
Delimit Scope py_scope with py.
Notation "'let*' x ':=' c 'in' k" := (bind c (fun x => k))
  (at level 10, x name, c at level 200, k at level 200, only parsing) : py_scope.
Notation "'let!' x ':=' o 'in' k" := (and_then o (fun x => k))
  (at level 10, x name, o at level 200, k at level 200, only parsing) : py_scope.
Open Scope py_scope.

(* ===================================================================== *)
(** * binary64 floats as Python uses them                                 *)
(* ===================================================================== *)

Module Float.

Definition prec : Z := 53.
Definition emax : Z := 1024.

Abbreviation float := spec_float.

Definition is_finite (x : float) : bool :=
  match x with
  | S754_zero _ | S754_finite _ _ _ => true
  | _ => false
  end.

(** The double nearest to an integer, ties to even. *)
Definition nearest (z : Z) : float := binary_normalize prec emax z 0 false.

(** [float(n)]: OverflowError when [n] is beyond the finite doubles. *)
Definition of_int (z : Z) : outcome float :=
  let x := nearest z in
  if is_finite x then Ok x else Raise OverflowError.

(** [a / b] on two ints: the correctly rounded quotient of the exact
    integers, ZeroDivisionError for [b = 0], OverflowError when the
    quotient is too large for a double. *)
Definition truediv (a b : Z) : outcome float :=
  match b, a with
  | Z0, _ => Raise ZeroDivisionError
  | _, Z0 => Ok (S754_zero (b <? 0))
  | _, _ =>
      let q := SFdiv prec emax
                 (S754_finite (a <? 0) (Z.to_pos (Z.abs a)) 0)
                 (S754_finite (b <? 0) (Z.to_pos (Z.abs b)) 0) in
      if is_finite q then Ok q else Raise OverflowError
  end.

(** [x * y] on floats never raises (overflow gives inf). *)
Definition mul (x y : float) : float := SFmul prec emax x y.

(** [x * n] with an int operand: the int is converted first. *)
Definition mul_int (x : float) (n : Z) : outcome float :=
  match of_int n with
  | Ok y => Ok (mul x y)
  | Raise e => Raise e
  end.

(** Comparisons; any comparison with NaN is False. *)
Definition ge (x y : float) : bool := SFleb y x.
Definition lt (x y : float) : bool := SFltb x y.

(** [int(x)]: truncation toward zero. *)
Definition to_int (x : float) : outcome Z :=
  match x with
  | S754_zero _ => Ok 0
  | S754_finite s m e =>
      let mag := match e with
                 | Zneg p => Z.shiftr (Zpos m) (Zpos p)
                 | _ => Z.shiftl (Zpos m) e
                 end in
      Ok (if s then - mag else mag)
  | S754_infinity _ => Raise OverflowError
  | S754_nan => Raise ValueError
  end.

(** Round-half-even of the rational [n / d], [d > 0]. *)
Definition div_half_even (n d : Z) : Z :=
  let q := n / d in
  let r := n mod d in
  match (2 * r ?= d) with
  | Lt => q
  | Gt => q + 1
  | Eq => if Z.even q then q else q + 1
  end.

(** [round(x, ndigits)] for [ndigits >= 0]: the exact binary value of [x]
    is rounded half-even to [ndigits] decimals and the decimal is read
    back as the nearest double. *)
Definition round (x : float) (ndigits : Z) : float :=
  match x with
  | S754_finite s m e =>
      let p := 10 ^ ndigits in
      let k := match e with
               | Zneg q => div_half_even (Zpos m * p) (2 ^ Zpos q)
               | _ => Zpos m * 2 ^ e * p
               end in
      match truediv (if s then - k else k) p with
      | Ok (S754_zero _) => S754_zero s
      | Ok y => y
      | Raise _ => x
      end
  | _ => x
  end.

(** Literals of the sources. *)
Definition zero : float := S754_zero false.                    (* 0.0 *)
Definition one : float := S754_finite false 4503599627370496 (-52).  (* 1.0 *)
Definition lit_0_8 : float := S754_finite false 7205759403792794 (-53).  (* 0.8 *)
Definition lit_0_95 : float := S754_finite false 8556839292003942 (-53). (* 0.95 *)

End Float.

(* ===================================================================== *)
(** * The AWS services the quota monitor talks to                         *)
(* ===================================================================== *)

Module Aws.
Import Float.

(** One datum of [put_metric_data]; [Dimensions] is absent when the
    dimension dict is empty. *)
Record metric_datum : Type := {
  MetricName : string;
  Value : float;
  Unit : string;
  Timestamp : string;
  Dimensions : option (list (string * string))
}.

(** An item of the usage table, keyed by [(api_name, period)]. *)
Record usage_item : Type := {
  item_usage_count : option Z;
  item_last_updated : option string;
  item_last_operation : option string
}.

(** The text handed to [_send_alert]: the three f-strings of
    [track_api_call], kept as templates with their arguments. *)
Inductive headline : Type :=
| QuotaExceededText (api : string) (usage_count quota_limit : Z)
| CriticalText (api : string) (usage_percentage : float) (usage_count quota_limit : Z)
| WarningText (api : string) (usage_percentage : float) (usage_count quota_limit : Z).

(** The body of the SNS message built in [_send_alert]. *)
Record alert_body : Type := {
  body_headline : headline;
  body_api : string;
  body_usage : Z;
  body_limit : option Z;
  body_percentage : float;
  body_timestamp : string;
  body_action_required : bool
}.

Record sns_message : Type := {
  TopicArn : string;
  Subject : string;
  Message : alert_body
}.

(** Everything the monitor can change: the usage table, the data points
    CloudWatch accepted (with their namespace) and the messages SNS
    accepted, oldest first. *)
Record world : Type := {
  usage_items : gmap (string * string) usage_item;
  cloudwatch_data : list (string * metric_datum);
  sns_messages : list sns_message
}.

(** What the monitor cannot control: the clock and which service calls
    fail during the call under study. *)
Record env : Type := {
  period_key : string;           (* strftime("%Y-%m") of now *)
  timestamp : string;            (* isoformat() of now *)
  put_metric_data_fails : string -> bool;   (* by metric name *)
  update_item_fails : bool;
  get_item_fails : bool;
  publish_fails : bool
}.

Section Calls.
Variable E : env.

(** [cloudwatch.put_metric_data(Namespace=ns, MetricData=[d])] *)
Definition put_metric_data (ns : string) (d : metric_datum) : M world unit :=
  if put_metric_data_fails E (MetricName d)
  then raise (ClientError "PutMetricData")
  else modify (fun w => {| usage_items := usage_items w;
                           cloudwatch_data := (cloudwatch_data w ++ [(ns, d)])%list;
                           sns_messages := sns_messages w |}).

(** The item after [ADD usage_count :inc SET last_updated, last_operation]:
    a missing item or attribute counts from 0. *)
Definition add_usage (old : option usage_item) (inc : Z) (operation : string)
  : usage_item :=
  {| item_usage_count :=
       Some (match old with
             | Some i => default 0 (item_usage_count i)
             | None => 0
             end + inc);
     item_last_updated := Some (timestamp E);
     item_last_operation := Some operation |}.

(** [usage_table.update_item(..., ReturnValues='ALL_NEW')]: atomic in
    DynamoDB, one step here; returns the new attributes. *)
Definition update_item (key : string * string) (inc : Z) (operation : string)
  : M world usage_item :=
  if update_item_fails E
  then raise (ClientError "UpdateItem")
  else
    let* w := get in
    let new := add_usage (usage_items w !! key) inc operation in
    let* _ := modify (fun w => {| usage_items := <[key := new]> (usage_items w);
                                  cloudwatch_data := cloudwatch_data w;
                                  sns_messages := sns_messages w |}) in
    ret new.

(** [usage_table.get_item(Key=...)]: the item when there is one. *)
Definition get_item (key : string * string) : M world (option usage_item) :=
  if get_item_fails E
  then raise (ClientError "GetItem")
  else let* w := get in ret (usage_items w !! key).

(** [sns_client.publish(TopicArn=..., Subject=..., Message=...)] *)
Definition publish (m : sns_message) : M world unit :=
  if publish_fails E
  then raise (ClientError "Publish")
  else modify (fun w => {| usage_items := usage_items w;
                           cloudwatch_data := cloudwatch_data w;
                           sns_messages := (sns_messages w ++ [m])%list |}).
End Calls.

End Aws.

(* ===================================================================== *)
(** * utils/cloudwatch_metrics.py                                         *)
(* ===================================================================== *)

Module CloudWatch.
Import Float Aws.

(** [CloudWatchMetricsPublisher]: [cloudwatch] is [None] when the client
    could not be created in [__init__]. *)
Record CloudWatchMetricsPublisher : Type := {
  namespace : string;
  cloudwatch : option unit
}.

Definition init (client_ok : bool) : CloudWatchMetricsPublisher :=
  {| namespace := "PDFAccessibility";
     cloudwatch := if client_ok then Some tt else None |}.

Section Methods.
Variable E : env.
Variable self : CloudWatchMetricsPublisher.

(** A dict of dimensions is an association list in insertion order. *)
Definition put_metric (metric_name : string) (value : float) (unit_ : string)
           (dimensions : list (string * string)) : M world bool :=
  match cloudwatch self with
  | None => ret false
  | Some _ =>
      try_except
        (let metric_data :=
           {| MetricName := metric_name;
              Value := value;
              Unit := unit_;
              Timestamp := timestamp E;
              Dimensions := match dimensions with
                            | [] => None
                            | _ => Some dimensions
                            end |} in
         let* _ := put_metric_data E (namespace self) metric_data in
         ret true)
        (fun _ => ret false)
  end.

Definition put_api_call_metric (api_name : string) (success : bool)
           (operation : option string) : M world bool :=
  let dimensions := [("APIName", api_name)] in
  let dimensions :=
    match operation with
    | Some op => if truthy_str op then (dimensions ++ [("Operation", op)])%list
                 else dimensions
    | None => dimensions
    end in
  let* _ := put_metric "APICallCount" one "Count" dimensions in
  let status_dimensions :=
    (dimensions ++ [("Status", if success then "Success" else "Failure")])%list in
  put_metric "APICallStatus" one "Count" status_dimensions.

Definition put_quota_usage_metric (api_name : string)
           (usage_count quota_limit : Z) : M world bool :=
  let dimensions := [("APIName", api_name); ("Period", "Monthly")] in
  let* value := lift_outcome (of_int usage_count) in
  let* _ := put_metric "QuotaUsage" value "Count" dimensions in
  let* percentage :=
    if quota_limit >? 0
    then let* q := lift_outcome (truediv usage_count quota_limit) in
         ret (mul q (nearest 100))
    else ret zero in
  put_metric "QuotaUsagePercentage" percentage "Percent" dimensions.

Definition put_error_metric (api_name error_type : string)
           (operation : option string) : M world bool :=
  let dimensions := [("APIName", api_name); ("ErrorType", error_type)] in
  let dimensions :=
    match operation with
    | Some op => if truthy_str op then (dimensions ++ [("Operation", op)])%list
                 else dimensions
    | None => dimensions
    end in
  put_metric "APIError" one "Count" dimensions.
End Methods.

End CloudWatch.

(* ===================================================================== *)
(** * utils/quota_monitor.py                                              *)
(* ===================================================================== *)

Module Quota.
Import Float Aws CloudWatch.

(** Values stored in the dict that [get_current_usage] returns. *)
Inductive value : Type :=
| VNone
| VInt (z : Z)
| VFloat (x : float)
| VStr (s : string).

Definition opt_str (o : option string) : value :=
  match o with Some s => VStr s | None => VNone end.

Definition opt_int (o : option Z) : value :=
  match o with Some z => VInt z | None => VNone end.

(** The dict returned by [track_api_call]; its keys are fixed. *)
Record usage_report : Type := {
  success : bool;
  usage_count : Z;
  report_quota_limit : option Z;
  usage_percentage : float;
  alert_sent : bool;
  quota_exceeded : bool
}.

Definition set_usage_count (n : Z) (r : usage_report) : usage_report :=
  {| success := success r; usage_count := n;
     report_quota_limit := report_quota_limit r;
     usage_percentage := usage_percentage r;
     alert_sent := alert_sent r; quota_exceeded := quota_exceeded r |}.

Definition set_usage_percentage (x : float) (r : usage_report) : usage_report :=
  {| success := success r; usage_count := usage_count r;
     report_quota_limit := report_quota_limit r;
     usage_percentage := x;
     alert_sent := alert_sent r; quota_exceeded := quota_exceeded r |}.

Definition set_alert_sent (b : bool) (r : usage_report) : usage_report :=
  {| success := success r; usage_count := usage_count r;
     report_quota_limit := report_quota_limit r;
     usage_percentage := usage_percentage r;
     alert_sent := b; quota_exceeded := quota_exceeded r |}.

Definition set_quota_exceeded (b : bool) (r : usage_report) : usage_report :=
  {| success := success r; usage_count := usage_count r;
     report_quota_limit := report_quota_limit r;
     usage_percentage := usage_percentage r;
     alert_sent := alert_sent r; quota_exceeded := b |}.

(** [QuotaMonitor]: the SNS client, the topic and the table are [None]
    when [__init__] could not set them up. *)
Record QuotaMonitor : Type := {
  api_name : string;
  quota_limit : option Z;
  warning_threshold : float;
  critical_threshold : float;
  metrics_publisher : CloudWatchMetricsPublisher;
  sns_client : option unit;
  sns_topic_arn : option string;
  usage_table : option string
}.

(** What [__init__] finds: which boto3 clients can be created and the
    two environment variables it reads. *)
Record boot : Type := {
  cloudwatch_client_ok : bool;
  sns_client_ok : bool;
  QUOTA_ALERT_SNS_TOPIC_ARN : option string;
  dynamodb_ok : bool;
  USAGE_TRACKING_TABLE : option string
}.

Definition default_warning_threshold : float := lit_0_8.
Definition default_critical_threshold : float := lit_0_95.

Definition init (B : boot) (api_name : string) (quota_limit : option Z)
           (warning_threshold critical_threshold : float) : QuotaMonitor :=
  {| api_name := api_name;
     quota_limit := quota_limit;
     warning_threshold := warning_threshold;
     critical_threshold := critical_threshold;
     metrics_publisher := CloudWatch.init (cloudwatch_client_ok B);
     sns_client := if sns_client_ok B then Some tt else None;
     sns_topic_arn := if sns_client_ok B then QUOTA_ALERT_SNS_TOPIC_ARN B else None;
     usage_table :=
       if dynamodb_ok B
       then Some (default "pdf-accessibility-usage" (USAGE_TRACKING_TABLE B))
       else None |}.

Section Methods.
Variable E : env.
Variable self : QuotaMonitor.

Definition _increment_usage_counter (operation : string) : M world Z :=
  match usage_table self with
  | None => ret 0
  | Some _ =>
      let period_key := period_key E in
      try_except
        (let* response := update_item E (api_name self, period_key) 1 operation in
         ret (default 0 (item_usage_count response)))
        (fun _ => ret 0)
  end.

Definition get_current_usage : M world (gmap string value) :=
  match usage_table self with
  | None => ret {[ "error" := VStr "Usage tracking not available" ]}
  | Some _ =>
      let period_key := period_key E in
      try_except
        (let* response := get_item E (api_name self, period_key) in
         match response with
         | Some item =>
             let usage_count := default 0 (item_usage_count item) in
             let* usage_percentage :=
               match quota_limit self with
               | Some L =>
                   if L =? 0 then ret (VInt 0)
                   else let* q := lift_outcome (truediv usage_count L) in
                        ret (VFloat q)
               | None => ret (VInt 0)
               end in
             ret (list_to_map
                    [("api_name", VStr (api_name self));
                     ("period", VStr period_key);
                     ("usage_count", VInt usage_count);
                     ("quota_limit", opt_int (quota_limit self));
                     ("usage_percentage", usage_percentage);
                     ("last_updated", opt_str (item_last_updated item));
                     ("last_operation", opt_str (item_last_operation item))])
         | None =>
             ret (list_to_map
                    [("api_name", VStr (api_name self));
                     ("period", VStr period_key);
                     ("usage_count", VInt 0);
                     ("quota_limit", opt_int (quota_limit self));
                     ("usage_percentage", VFloat zero)])
         end)
        (fun e => ret {[ "error" := VStr (str_exn e) ]})
  end.

Definition _send_alert (level : string) (message : headline)
           (usage_count : Z) (usage_percentage : float) : M world bool :=
  match sns_client self, sns_topic_arn self with
  | Some _, Some arn =>
      if truthy_str arn then
        try_except
          (let subject :=
             "[" +:+ level +:+ "] PDF Accessibility - "
                 +:+ api_name self +:+ " Quota Alert" in
           let detailed_message :=
             {| body_headline := message;
                body_api := api_name self;
                body_usage := usage_count;
                body_limit := quota_limit self;
                body_percentage := usage_percentage;
                body_timestamp := timestamp E;
                body_action_required := ge usage_percentage one |} in
           let* _ := publish E {| TopicArn := arn;
                                  Subject := subject;
                                  Message := detailed_message |} in
           ret true)
          (fun _ => ret false)
      else ret false
  | _, _ => ret false
  end.

(** The body of the [try] in [track_api_call]; the local [result] is
    the second component of the store. *)
Definition track_usage (operation : string) : M (world * usage_report) unit :=
  let* usage_count := outer (_increment_usage_counter operation) in
  let* _ := set_local (set_usage_count usage_count) in
  match quota_limit self with
  | Some L =>
      if negb (L =? 0) && (L >? 0) then
        let* usage_percentage := lift_outcome (truediv usage_count L) in
        let* _ := set_local (set_usage_percentage usage_percentage) in
        let* _ := outer (put_quota_usage_metric E (metrics_publisher self)
                           (api_name self) usage_count L) in
        if ge usage_percentage one then
          let* _ := set_local (set_quota_exceeded true) in
          let* sent := outer (_send_alert "CRITICAL"
                                (QuotaExceededText (api_name self) usage_count L)
                                usage_count usage_percentage) in
          set_local (set_alert_sent sent)
        else if ge usage_percentage (critical_threshold self) then
          let* sent := outer (_send_alert "CRITICAL"
                                (CriticalText (api_name self) usage_percentage
                                              usage_count L)
                                usage_count usage_percentage) in
          set_local (set_alert_sent sent)
        else if ge usage_percentage (warning_threshold self) then
          let* sent := outer (_send_alert "WARNING"
                                (WarningText (api_name self) usage_percentage
                                             usage_count L)
                                usage_count usage_percentage) in
          set_local (set_alert_sent sent)
        else ret tt
      else ret tt
  | None => ret tt
  end.

Definition track_api_call (operation : string) (success : bool)
           (error_type : option string) : M world usage_report :=
  let result :=
    {| success := success;
       usage_count := 0;
       report_quota_limit := quota_limit self;
       usage_percentage := zero;
       alert_sent := false;
       quota_exceeded := false |} in
  let* _ := put_api_call_metric E (metrics_publisher self)
              (api_name self) success (Some operation) in
  let* _ :=
    match error_type with
    | Some e =>
        if truthy_str e
        then put_error_metric E (metrics_publisher self)
               (api_name self) e (Some operation)
        else ret false
    | None => ret false
    end in
  if success && bool_decide (is_Some (usage_table self)) then
    let* body := with_local result
                   (try_except (track_usage operation) (fun _ => ret tt)) in
    ret (snd body)
  else ret result.

Definition check_quota_available : M world bool :=
  match quota_limit self with
  | None => ret true
  | Some L =>
      if L =? 0 then ret true
      else
        let* usage_info := get_current_usage in
        if bool_decide (is_Some (usage_info !! "error")) then ret true
        else
          match default (VInt 0) (usage_info !! "usage_count") with
          | VInt usage_count => ret (usage_count <? L)
          | _ => raise TypeError
          end
  end.
End Methods.

(** ** Worked runs *)

Definition calm : env :=
  {| period_key := "2025-01"; timestamp := "2025-01-15T10:00:00+00:00";
     put_metric_data_fails := fun _ => false;
     update_item_fails := false; get_item_fails := false;
     publish_fails := false |}.

Definition table_read_down : env :=
  {| period_key := "2025-01"; timestamp := "2025-01-15T10:00:00+00:00";
     put_metric_data_fails := fun _ => false;
     update_item_fails := false; get_item_fails := true;
     publish_fails := false |}.

Definition table_write_down : env :=
  {| period_key := "2025-01"; timestamp := "2025-01-15T10:00:00+00:00";
     put_metric_data_fails := fun _ => false;
     update_item_fails := true; get_item_fails := false;
     publish_fails := false |}.

Definition full_boot : boot :=
  {| cloudwatch_client_ok := true; sns_client_ok := true;
     QUOTA_ALERT_SNS_TOPIC_ARN := Some "arn:aws:sns:quota-alerts";
     dynamodb_ok := true; USAGE_TRACKING_TABLE := None |}.

Definition adobe (limit : option Z) : QuotaMonitor :=
  init full_boot "AdobeAPI" limit default_warning_threshold default_critical_threshold.

Definition used (n : Z) : world :=
  {| usage_items := {[ ("AdobeAPI", "2025-01") :=
                         {| item_usage_count := Some n;
                            item_last_updated := None;
                            item_last_operation := None |} ]};
     cloudwatch_data := [];
     sns_messages := [] |}.

End Quota.

(* ===================================================================== *)
(** * lambda/pdf_analyzer/main.py                                         *)
(* ===================================================================== *)

Module Analyzer.
Import Float.

(** ** The [str] methods the estimator uses.  Text is a string of code
    points below 256; the character classes are Python's on that range. *)

Definition code (c : ascii) : N := N_of_ascii c.

(** [c.isspace()] *)
Definition isspace (c : ascii) : bool :=
  let n := code c in
  ((9 <=? n) && (n <=? 13) || (28 <=? n) && (n <=? 32)
   || (n =? 133) || (n =? 160))%N.

(** [c.isupper()] *)
Definition isupper (c : ascii) : bool :=
  let n := code c in
  ((65 <=? n) && (n <=? 90) || (192 <=? n) && (n <=? 214)
   || (216 <=? n) && (n <=? 222))%N.

(** [text.split('\n')] *)
Fixpoint split_lines (s : string) : list string :=
  match s with
  | EmptyString => [EmptyString]
  | String c rest =>
      if (code c =? 10)%N then EmptyString :: split_lines rest
      else match split_lines rest with
           | l :: ls => String c l :: ls
           | [] => [String c EmptyString]
           end
  end.

Fixpoint lstrip (s : string) : string :=
  match s with
  | String c rest => if isspace c then lstrip rest else s
  | EmptyString => EmptyString
  end.

Fixpoint rstrip (s : string) : string :=
  match s with
  | String c rest =>
      match rstrip rest with
      | EmptyString => if isspace c then EmptyString else String c EmptyString
      | r => String c r
      end
  | EmptyString => EmptyString
  end.

(** [line.strip()] *)
Definition strip (s : string) : string := rstrip (lstrip s).

(** [line.count('  ')]: occurrences of two spaces, not overlapping. *)
Fixpoint count_double_space (s : string) : Z :=
  match s with
  | String a (String b rest as tail) =>
      if ((code a =? 32) && (code b =? 32))%N
      then 1 + count_double_space rest
      else count_double_space tail
  | _ => 0
  end.

(** ['\t' in line] *)
Fixpoint has_tab (s : string) : bool :=
  match s with
  | String c rest => (code c =? 9)%N || has_tab rest
  | EmptyString => false
  end.

(** [os.path.basename(key)] *)
Fixpoint basename_from (acc s : string) : string :=
  match s with
  | String c rest =>
      if (code c =? 47)%N then basename_from EmptyString rest
      else basename_from (acc +:+ String c EmptyString) rest
  | EmptyString => acc
  end.

Definition basename (key : string) : string := basename_from EmptyString key.

(** ** Pages as PyPDF2 shows them to the estimator *)

(** [page['/Resources']]: the XObject dict when there is one, each entry
    with its ['/Subtype'] when it has one; [get_object()] may raise. *)
Record resources : Type := {
  XObject : option (outcome (list (string * option string)))
}.

Record pdf_page : Type := {
  extract_text : outcome string;
  Resources : option resources
}.

(** One line of the first loop of [estimate_elements_from_page]. *)
Definition count_line (elements : Z) (line : string) : Z :=
  let stripped := strip line in
  match stripped with
  | String first _ =>
      let elements :=
        if (Z.of_nat (String.length stripped) <? 100) && isupper first
        then elements + 1 else elements in
      elements + 1
  | EmptyString => elements
  end.

Definition is_table_line (line : string) : bool :=
  (3 <=? count_double_space line) || has_tab line.

(** [[obj for obj in xobjects if xobjects[obj]['/Subtype'] == '/Image']] *)
Fixpoint image_names (xobjects : list (string * option string))
  : outcome (list string) :=
  match xobjects with
  | [] => Ok []
  | (obj, subtype) :: rest =>
      match subtype with
      | None => Raise (KeyError "/Subtype")
      | Some t =>
          let! images := image_names rest in
          Ok (if String.eqb t "/Image" then obj :: images else images)
      end
  end.

(** The [try] body of [estimate_elements_from_page]. *)
Definition count_elements (page : pdf_page) : outcome Z :=
  let! text := extract_text page in
  let elements := 0 in
  let lines := split_lines text in
  let elements := fold_left count_line lines elements in
  let table_indicators := Z.of_nat (length (filter is_table_line lines)) in
  let elements := elements + table_indicators * 2 in
  let! res := match Resources page with
              | Some r => Ok r
              | None => Raise (KeyError "/Resources")
              end in
  let! elements :=
    match XObject res with
    | Some got =>
        let! xobjects := got in
        let! images := image_names xobjects in
        Ok (elements + Z.of_nat (length images) * 2)
    | None => Ok elements
    end in
  Ok (Z.max elements 5).

Definition estimate_elements_from_page (page : pdf_page) : Z :=
  match count_elements page with
  | Ok n => n
  | Raise _ => 10
  end.

Definition classify_complexity (avg_elements : float) : string :=
  if lt avg_elements (nearest 5) then "simple"
  else if lt avg_elements (nearest 10) then "moderate"
  else if lt avg_elements (nearest 20) then "complex"
  else "very_complex".

(** ** The document as [PdfReader] shows it *)

Record pdf_document : Type := {
  size_bytes : Z;
  pages : list pdf_page;
  metadata : option (gmap string string)
}.

Record analysis_result : Type := {
  file_key : string;
  file_name : string;
  file_size_bytes : Z;
  file_size_mb : float;
  num_pages : Z;
  estimated_elements : Z;
  avg_elements_per_page : float;
  estimated_adobe_transactions : Z;
  estimated_cost_percentage : float;
  pdf_title : string;
  analysis_timestamp : string;
  status : string;
  complexity : string
}.

(** [for i in range(sample_size): total_elements +=
    estimate_elements_from_page(pdf_reader.pages[i])] *)
Fixpoint sample_loop (pages : list pdf_page) (indices : list nat)
         (total_elements : Z) : outcome Z :=
  match indices with
  | [] => Ok total_elements
  | i :: rest =>
      match pages !! i with
      | Some page =>
          sample_loop pages rest (total_elements + estimate_elements_from_page page)
      | None => Raise IndexError
      end
  end.

(** [analyze_pdf(bucket, key)]; [source] is what downloading the object
    and opening it with [PdfReader] gives, [now] the clock. *)
Definition analyze_pdf (now : string) (source : outcome pdf_document)
           (key : string) : outcome analysis_result :=
  let! pdf_reader := source in
  let pdf_size_bytes := size_bytes pdf_reader in
  let num_pages := length (pages pdf_reader) in
  let! pdf_size_mb := truediv pdf_size_bytes (1024 * 1024) in
  let total_elements := 0 in
  let sample_size := Nat.min num_pages 10 in
  let! total_elements :=
    sample_loop (pages pdf_reader) (seq 0 sample_size) total_elements in
  let! avg_elements_per_page :=
    truediv total_elements (Z.of_nat sample_size) in
  let! extrapolated := mul_int avg_elements_per_page (Z.of_nat num_pages) in
  let! estimated_total_elements := to_int extrapolated in
  let estimated_transactions := estimated_total_elements in
  let pdf_title :=
    match metadata pdf_reader with
    | Some m => if bool_decide (m = ∅) then "Unknown"
                else default "Unknown" (m !! "/Title")
    | None => "Unknown"
    end in
  let! share := truediv estimated_transactions 25000 in
  let! percent := mul_int share 100 in
  Ok {| file_key := key;
        file_name := basename key;
        file_size_bytes := pdf_size_bytes;
        file_size_mb := round pdf_size_mb 2;
        num_pages := Z.of_nat num_pages;
        estimated_elements := estimated_total_elements;
        avg_elements_per_page := round avg_elements_per_page 1;
        estimated_adobe_transactions := estimated_transactions;
        estimated_cost_percentage := round percent 2;
        pdf_title := pdf_title;
        analysis_timestamp := now;
        status := "analyzed";
        complexity := classify_complexity avg_elements_per_page |}.

(** ** Worked pages *)

Definition plain_page (text : string) : pdf_page :=
  {| extract_text := Ok text; Resources := Some {| XObject := None |} |}.

Definition corrupt_page : pdf_page :=
  {| extract_text := Raise PdfReadError; Resources := None |}.

Definition seven_lines : string :=
  "a" +:+ String (ascii_of_N 10) ("b" +:+ String (ascii_of_N 10) ("c" +:+
  String (ascii_of_N 10) ("d" +:+ String (ascii_of_N 10) ("e" +:+
  String (ascii_of_N 10) ("f" +:+ String (ascii_of_N 10) "g"))))).

Definition one_page_doc (p : pdf_page) : pdf_document :=
  {| size_bytes := 2048; pages := [p]; metadata := None |}.

End Analyzer.

(* ===================================================================== *)
(** * lambda/start_remediation/main.py                                    *)
(* ===================================================================== *)

Module Approval.

(** JSON values of a request body. *)
Inductive json : Type :=
| JNull
| JBool (b : bool)
| JNum (z : Z)
| JStr (s : string).

(** [if not v] is taken when [truthy v] is false. *)
Definition truthy (v : json) : bool :=
  match v with
  | JNull => false
  | JBool b => b
  | JNum z => negb (z =? 0)
  | JStr s => truthy_str s
  end.

(** The three shapes of [event] the handler tells apart: a ['body'] that
    is a string (given with what [json.loads] makes of it), a ['body']
    that is already a dict, and no ['body'] key (the event is the body). *)
Inductive event : Type :=
| BodyText (loaded : outcome (gmap string json))
| BodyDict (body : gmap string json)
| Direct (body : gmap string json).

(** An item of the pending-jobs table, with the attributes the handler
    reads or writes; each may be missing. *)
Record job : Type := {
  status : option string;
  file_key : option string;
  file_name : option string;
  estimated_transactions : option Z;
  approved_at : option string
}.

Definition no_attributes : job :=
  {| status := None; file_key := None; file_name := None;
     estimated_transactions := None; approved_at := None |}.

(** The job table, the bucket and the keys for which the bucket sent an
    ObjectCreated notification (what starts the workflow), oldest first. *)
Record world : Type := {
  pending_jobs : gmap string job;
  bucket : gmap string string;
  object_created : list string
}.

(** Which service calls fail during one invocation, and the clock. *)
Record env : Type := {
  now : string;
  get_item_fails : bool;
  flip_fails : bool;        (* the update_item that sets processing *)
  copy_object_fails : bool;
  revert_fails : bool       (* the update_item that restores pending_approval *)
}.

Record response_body : Type := {
  success : bool;
  error : option string;
  body_job_id : option string;
  message : option string;
  source_key : option string;
  destination_key : option string;
  body_estimated_transactions : option Z
}.

Record response : Type := {
  statusCode : Z;
  body : response_body
}.

Definition failure (code : Z) (msg : string) : response :=
  {| statusCode := code;
     body := {| success := false; error := Some msg; body_job_id := None;
                message := None; source_key := None; destination_key := None;
                body_estimated_transactions := None |} |}.

(** ** Service calls *)

(** [table.get_item(Key={'job_id': job_id})]; the key must be a string. *)
Definition get_item (fails : bool) (job_id : json)
  : M world (string * option job) :=
  match job_id with
  | JStr k =>
      if fails then raise (ClientError "GetItem")
      else let* w := get in ret (k, pending_jobs w !! k)
  | _ => raise (ClientError "GetItem")
  end.

(** [table.update_item(Key=..., UpdateExpression='SET ...')]: the
    attributes are set on the item, which is created when missing. *)
Definition update_item (fails : bool) (k : string) (set : job -> job)
  : M world unit :=
  if fails then raise (ClientError "UpdateItem")
  else modify (fun w =>
         {| pending_jobs :=
              <[k := set (default no_attributes (pending_jobs w !! k))]>
                (pending_jobs w);
            bucket := bucket w;
            object_created := object_created w |}).

Definition set_processing (timestamp : string) (j : job) : job :=
  {| status := Some "processing"; file_key := file_key j;
     file_name := file_name j;
     estimated_transactions := estimated_transactions j;
     approved_at := Some timestamp |}.

Definition set_pending_approval (j : job) : job :=
  {| status := Some "pending_approval"; file_key := file_key j;
     file_name := file_name j;
     estimated_transactions := estimated_transactions j;
     approved_at := approved_at j |}.

(** [s3_client.copy_object(...)] within the bucket: fails when the
    service does or when the source key is missing. *)
Definition copy_object (fails : bool) (src dst : string) : M world unit :=
  if fails then raise (ClientError "CopyObject")
  else
    let* w := get in
    match bucket w !! src with
    | None => raise (ClientError "CopyObject")
    | Some content =>
        modify (fun w =>
          {| pending_jobs := pending_jobs w;
             bucket := <[dst := content]> (bucket w);
             object_created := (object_created w ++ [dst])%list |})
    end.

(** [job[attr]] *)
Definition item {A} (attr : string) (v : option A) : M world A :=
  match v with
  | Some a => ret a
  | None => raise (KeyError attr)
  end.

Section Handler.
Variable E : env.

(** The handler once [get_item] has answered for the key [id]: the 404
    and 409 answers, the flip to processing, the copy and the rollback. *)
Definition after_lookup (id : string) (found : option job) : M world response :=
  match found with
  | None => ret (failure 404 ("Job " +:+ id +:+ " not found"))
  | Some job =>
      if bool_decide (status job = Some "processing")
      then ret (failure 409 "Job is already processing")
      else
        let* _ := update_item (flip_fails E) id (set_processing (now E)) in
        let* source_key := item "file_key" (file_key job) in
        let* file_name := item "file_name" (file_name job) in
        let destination_key := "pdf/" +:+ file_name in
        try_except
          (let* _ := copy_object (copy_object_fails E) source_key destination_key in
           let* estimate := item "estimated_transactions"
                              (estimated_transactions job) in
           ret {| statusCode := 200;
                  body :=
                    {| success := true; error := None;
                       body_job_id := Some id;
                       message := Some "Remediation started - file copied to processing folder";
                       source_key := Some source_key;
                       destination_key := Some destination_key;
                       body_estimated_transactions := Some estimate |} |})
          (fun copy_error =>
             let* _ := update_item (revert_fails E) id set_pending_approval in
             ret (failure 500 ("Failed to start processing: "
                                 +:+ str_exn copy_error)))
  end.

(** The body of the outer [try] of [lambda_handler]. *)
Definition start_remediation (ev : event) : M world response :=
  let* body :=
    match ev with
    | BodyText loaded => lift_outcome loaded
    | BodyDict b => ret b
    | Direct b => ret b
    end in
  let job_id := default JNull (body !! "job_id") in
  let user_approved := default (JBool false) (body !! "user_approved") in
  if negb (truthy job_id) then ret (failure 400 "job_id is required")
  else if negb (truthy user_approved)
  then ret (failure 400 "user_approved must be true")
  else
    let* got := get_item (get_item_fails E) job_id in
    after_lookup (fst got) (snd got).

Definition lambda_handler (ev : event) : M world response :=
  try_except (start_remediation ev)
             (fun e => ret (failure 500 (str_exn e))).
End Handler.

(** ** Worked runs *)

Definition approve_request (job_id : string) : event :=
  Direct {[ "job_id" := JStr job_id; "user_approved" := JBool true ]}.

Definition analyzed_job (st : string) : job :=
  {| status := Some st; file_key := Some "pdf-upload/report.pdf";
     file_name := Some "report.pdf"; estimated_transactions := Some 120;
     approved_at := None |}.

Definition one_job (st : string) : world :=
  {| pending_jobs := {[ "report.pdf_1733752800" := analyzed_job st ]};
     bucket := {[ "pdf-upload/report.pdf" := "%PDF-1.7" ]};
     object_created := [] |}.

Definition all_up : env :=
  {| now := "2025-01-15T10:00:00+00:00"; get_item_fails := false;
     flip_fails := false; copy_object_fails := false; revert_fails := false |}.

Definition copy_down (revert_down : bool) : env :=
  {| now := "2025-01-15T10:00:00+00:00"; get_item_fails := false;
     flip_fails := false; copy_object_fails := true;
     revert_fails := revert_down |}.

Definition status_of (w : world) (job_id : string) : option string :=
  j ← pending_jobs w !! job_id; status j.

End Approval.

(* ===================================================================== *)
(** * app.py: the Step Functions definition                               *)
(* ===================================================================== *)

Module Workflow.

(** States of a definition: a task invocation, a Map over the items of
    its input with a concurrency ceiling, a Parallel of branches.  A
    chain is the list of its states in order. *)
Inductive state : Type :=
| Task (id : string)
| Map (id : string) (max_concurrency : nat) (iterator : list state)
| Parallel (id : string) (branches : list (list state)).

Abbreviation chain := (list state).

(** [a.next(b)] on a chain, [map.iterator(chain)], [parallel.branch(chain)] *)
Definition next (c : chain) (s : state) : chain := (c ++ [s])%list.

Definition iterator (m : state) (c : chain) : state :=
  match m with
  | Map id k _ => Map id k c
  | other => other
  end.

Definition branch (p : state) (c : chain) : state :=
  match p with
  | Parallel id bs => Parallel id (bs ++ [c])%list
  | other => other
  end.

(** The definition as app.py builds it. *)
Definition ecs_task_1 : state := Task "ECS RunTask".
Definition ecs_task_2 : state := Task "ECS RunTask (1)".
Definition map_state : state :=
  iterator (Map "Map" 100 []) (next [ecs_task_1] ecs_task_2).
Definition java_lambda_task : state := Task "Invoke Java Lambda".
Definition add_title_lambda_task : state := Task "Invoke Add Title Lambda".
Definition a11y_precheck_lambda_task : state := Task "a11y_precheck".
Definition a11y_postcheck_lambda_task : state := Task "a11y_postcheck".

Definition main_chain : chain :=
  next (next (next [map_state] java_lambda_task) add_title_lambda_task)
       a11y_postcheck_lambda_task.

Definition parallel_state : state :=
  branch (branch (Parallel "ParallelState" []) main_chain)
         [a11y_precheck_lambda_task].

Definition definition : state := parallel_state.

(** ** Executions

    The events of an execution history that order the states: a state is
    entered and exited, an iteration of a Map starts and succeeds.
    States run inside iteration [i] of a Map carry [Some i]. *)
Inductive history_event : Type :=
| StateEntered (id : string) (iteration : option nat)
| StateExited (id : string) (iteration : option nat)
| MapIterationStarted (id : string) (index : nat)
| MapIterationSucceeded (id : string) (index : nat).

Abbreviation history := (list history_event).

(** [interleaving hs h]: [h] merges the histories [hs], keeping the order
    inside each. *)
Inductive interleaving : list history -> history -> Prop :=
| interleaving_done hs :
    Forall (fun h => h = []) hs -> interleaving hs []
| interleaving_step before e h after rest :
    interleaving (before ++ h :: after) rest ->
    interleaving (before ++ (e :: h) :: after) (e :: rest).

(** The largest number of iterations in flight at once. *)
Fixpoint peak_in_flight (running : nat) (h : history) : nat :=
  match h with
  | [] => running
  | MapIterationStarted _ _ :: rest =>
      Nat.max running (peak_in_flight (S running) rest)
  | MapIterationSucceeded _ _ :: rest =>
      Nat.max running (peak_in_flight (pred running) rest)
  | _ :: rest => peak_in_flight running rest
  end.

(** Successful executions of a state, of a chain, of the iterations
    [i, i+1, ...] of a Map body and of the branches of a Parallel.
    [items] is the number of items the Map input holds (the chunks). *)
Inductive runs (items : nat) : option nat -> state -> history -> Prop :=
| runs_task it id :
    runs items it (Task id) [StateEntered id it; StateExited id it]
| runs_map it id k body hs h :
    runs_iterations items id body 0 items hs ->
    interleaving hs h ->
    (peak_in_flight 0 h <= k)%nat ->
    runs items it (Map id k body)
         (StateEntered id it :: h ++ [StateExited id it])
| runs_parallel it id bs hs h :
    runs_branches items it bs hs ->
    interleaving hs h ->
    runs items it (Parallel id bs)
         (StateEntered id it :: h ++ [StateExited id it])
with runs_chain (items : nat) : option nat -> chain -> history -> Prop :=
| runs_chain_nil it : runs_chain items it [] []
| runs_chain_cons it s c h1 h2 :
    runs items it s h1 ->
    runs_chain items it c h2 ->
    runs_chain items it (s :: c) (h1 ++ h2)
with runs_iterations (items : nat)
     : string -> chain -> nat -> nat -> list history -> Prop :=
| runs_iterations_nil id body i : runs_iterations items id body i 0 []
| runs_iterations_cons id body i n h hs :
    runs_chain items (Some i) body h ->
    runs_iterations items id body (S i) n hs ->
    runs_iterations items id body i (S n)
      ((MapIterationStarted id i :: h ++ [MapIterationSucceeded id i]) :: hs)
with runs_branches (items : nat)
     : option nat -> list chain -> list history -> Prop :=
| runs_branches_nil it : runs_branches items it [] []
| runs_branches_cons it c cs h hs :
    runs_chain items it c h ->
    runs_branches items it cs hs ->
    runs_branches items it (c :: cs) (h :: hs).

(** A workflow execution on a document split into [items] chunks. *)
Definition execution (items : nat) (h : history) : Prop :=
  runs items None definition h.


(** The events the claims name. *)
Definition join : history_event := StateExited "ParallelState" None.
Definition map_done : history_event := StateExited "Map" None.
Definition merge_begins : history_event := StateEntered "Invoke Java Lambda" None.
Definition merge_done : history_event := StateExited "Invoke Java Lambda" None.
Definition add_title_begins : history_event :=
  StateEntered "Invoke Add Title Lambda" None.
Definition add_title_done : history_event :=
  StateExited "Invoke Add Title Lambda" None.
Definition verify_final_begins : history_event := StateEntered "a11y_postcheck" None.
Definition verify_final_done : history_event := StateExited "a11y_postcheck" None.
Definition independent_verify_begins : history_event :=
  StateEntered "a11y_precheck" None.
Definition independent_verify_done : history_event :=
  StateExited "a11y_precheck" None.



End Workflow.

(* ===================================================================== *)
(** * Vocabulary of the statements                                        *)
(* ===================================================================== *)

Section QuotaVocabulary.
Import Float Aws CloudWatch Quota.

Variable E : Aws.env.
Variable self : QuotaMonitor.

(** CloudWatch calls never raise and touch neither the usage table nor
    the SNS topic. *)
Definition metrics_only (w w' : Aws.world) : Prop :=
  usage_items w' = usage_items w /\ sns_messages w' = sns_messages w /\
  exists new, cloudwatch_data w' = (cloudwatch_data w ++ new)%list.


(** The message [_send_alert] publishes. *)
Definition alert_message (arn level : string) (text : headline)
           (usage : Z) (pct : float) : sns_message :=
  {| TopicArn := arn;
     Subject := "[" +:+ level +:+ "] PDF Accessibility - "
                    +:+ api_name self +:+ " Quota Alert";
     Message := {| body_headline := text;
                   body_api := api_name self;
                   body_usage := usage;
                   body_limit := quota_limit self;
                   body_percentage := pct;
                   body_timestamp := timestamp E;
                   body_action_required := ge pct one |} |}.

(** SNS is usable: client and a non-empty topic were found at start-up
    and the service accepts the publish. *)
Definition sns_delivers : Prop :=
  sns_client self <> None /\
  (exists arn, sns_topic_arn self = Some arn /\ truthy_str arn = true) /\
  publish_fails E = false.

(** The report [track_api_call] starts from. *)
Definition fresh_report (ok : bool) : usage_report :=
  {| success := ok; usage_count := 0;
     report_quota_limit := quota_limit self;
     usage_percentage := zero; alert_sent := false;
     quota_exceeded := false |}.

(** The branch of the threshold chain taken at percentage [pct]. *)
Inductive rung : Type := Exceeded | Critical | Warning | Below.

Definition rung_of (pct : float) : rung :=
  if ge pct one then Exceeded
  else if ge pct (critical_threshold self) then Critical
  else if ge pct (warning_threshold self) then Warning
  else Below.

Definition level_of (g : rung) : string :=
  match g with Warning => "WARNING" | _ => "CRITICAL" end.

Definition text_of (g : rung) (pct : float) (n L : Z) : headline :=
  match g with
  | Exceeded => QuotaExceededText (api_name self) n L
  | Critical => CriticalText (api_name self) pct n L
  | _ => WarningText (api_name self) pct n L
  end.

Definition limit_in_force : option Z :=
  match quota_limit self with
  | Some L => if negb (L =? 0) && (L >? 0) then Some L else None
  | None => None
  end.

(** The error metric step of [track_api_call]. *)
Definition error_metric_step (op : string) (err : option string) : M world bool :=
  match err with
  | Some e => if truthy_str e
              then put_error_metric E (metrics_publisher self)
                     (api_name self) e (Some op)
              else ret false
  | None => ret false
  end.


(** The count of the current period as the table holds it. *)
Definition current_count (w : Aws.world) : Z :=
  match usage_items w !! (api_name self, period_key E) with
  | Some i => default 0 (item_usage_count i)
  | None => 0
  end.
End QuotaVocabulary.

Section AnalyzerVocabulary.
Import Float Analyzer.

(** The sum of the per-page estimates of a list of pages. *)
Definition sampled_total (ps : list pdf_page) : Z :=
  fold_right Z.add 0 (map estimate_elements_from_page ps).

End AnalyzerVocabulary.

Section ApprovalVocabulary.
Import Approval.

(** The body of the request, as the first lines of the handler find it. *)
Definition body_of (ev : event) : outcome (gmap string json) :=
  match ev with
  | BodyText loaded => loaded
  | BodyDict b => Ok b
  | Direct b => Ok b
  end.

(** An approval request for [id]: the body parses, names the job by a
    non-empty string and carries a true [user_approved]. *)
Definition approves (ev : event) (id : string) : Prop :=
  exists b, body_of ev = Ok b /\
            b !! "job_id" = Some (JStr id) /\ truthy_str id = true /\
            truthy (default (JBool false) (b !! "user_approved")) = true.

End ApprovalVocabulary.

Section ApprovalRuns.
Import Approval.

(** Every run of the handler returns a response; the runs are sorted by
    what they wrote to the job table. *)
Inductive written (E : env) (w : world) (r : response) (w' : world) : Prop :=
| wrote_nothing :
    w' = w -> statusCode r <> 200 -> written E w r w'
| wrote_processing id job :
    pending_jobs w !! id = Some job ->
    status job <> Some "processing" ->
    pending_jobs w' = <[id := set_processing (now E) job]> (pending_jobs w) ->
    (statusCode r = 200 \/
     statusCode r = 500 /\
     (file_key job = None \/ file_name job = None \/ revert_fails E = true)) ->
    written E w r w'
| wrote_pending_approval id job :
    pending_jobs w !! id = Some job ->
    status job <> Some "processing" ->
    pending_jobs w' =
      <[id := set_pending_approval (set_processing (now E) job)]> (pending_jobs w) ->
    statusCode r = 500 ->
    written E w r w'.
End ApprovalRuns.

Section WorkflowVocabulary.
Import Workflow.

(** The merge of two histories, the shape an interleaving of two
    branches has. *)
Inductive merge2 : history -> history -> history -> Prop :=
| merge2_nil : merge2 [] [] []
| merge2_left e h1 h2 h : merge2 h1 h2 h -> merge2 (e :: h1) h2 (e :: h)
| merge2_right e h1 h2 h : merge2 h1 h2 h -> merge2 h1 (e :: h2) (e :: h).


(** The history of the main branch around the iterations [v] of the Map,
    and of the verification branch. *)
Definition main_branch_history (v : history) : history :=
  ((StateEntered "Map" None :: v ++ [map_done]) ++
   [merge_begins; merge_done; add_title_begins; add_title_done;
    verify_final_begins; verify_final_done])%list.

Definition verify_branch_history : history :=
  [independent_verify_begins; independent_verify_done].
End WorkflowVocabulary.

(* ===================================================================== *)
(** * lambda/pdf_analyzer/main.py: storing the analysis, the handler      *)
(* ===================================================================== *)

Module Intake.
Import Float Analyzer.

(** The item [save_to_dynamodb] puts in the pending-jobs table. *)
Record pending_item : Type := {
  item_job_id : string;
  item_user_email : string;
  item_file_key : string;
  item_file_name : string;
  item_file_size_mb : float;
  item_num_pages : Z;
  item_estimated_transactions : Z;
  item_complexity : string;
  item_status : string;
  item_created_at : string;
  item_ttl : Z
}.

(** The pending-jobs table, keyed by [job_id]. *)
Abbreviation world := (gmap string pending_item).

(** What one invocation meets: the clock of [analyze_pdf], what
    downloading [s3://bucket/key] and opening it with [PdfReader] gives,
    the two readings of [timestamp()] in [save_to_dynamodb], and whether
    [put_item] raises (a service error, or the serializer refusing a
    value of the item). *)
Record env : Type := {
  now : string;
  get_object : string -> string -> outcome pdf_document;
  job_id_clock : float;
  ttl_clock : float;
  put_item_fails : bool
}.

(** The dict [save_to_dynamodb] returns: the analysis, with ['job_id']
    once the item was stored. *)
Record saved_analysis : Type := {
  analysis : analysis_result;
  job_id : option string
}.

Inductive response_body : Type :=
| Analysed (analysis : saved_analysis)      (* success: True *)
| Failed (error : string).                  (* success: False *)

Record response : Type := {
  statusCode : Z;
  body : response_body
}.

(** The two shapes of [event] the handler reads: an S3 notification with
    its records (each naming a bucket and a URL-encoded key), or a direct
    invocation, whose ['bucket'] and ['key'] may be missing. *)
Record s3_record : Type := {
  s3_bucket_name : string;
  s3_object_key : string
}.

Inductive event : Type :=
| S3Notification (Records : list s3_record)
| DirectInvocation (bucket key : option string).

(** [x + n] on a float and an int. *)
Definition add_int (x : float) (n : Z) : outcome float :=
  match of_int n with
  | Ok y => Ok (SFadd prec emax x y)
  | Raise e => Raise e
  end.

Section Handler.
(** [urllib.parse.unquote_plus], any function on keys here. *)
Variable unquote_plus : string -> string.
Variable E : env.

(** [table.put_item(Item=item)]: the item replaces the one of its key. *)
Definition put_item (item : pending_item) : M world unit :=
  if put_item_fails E then raise (ClientError "PutItem")
  else modify (fun table => <[item_job_id item := item]> table).

Definition save_to_dynamodb (analysis_result : analysis_result)
  : M world saved_analysis :=
  try_except
    (let* seconds := lift_outcome (to_int (job_id_clock E)) in
     let job_id := file_name analysis_result +:+ "_" +:+ pretty seconds in
     let* expiry := lift_outcome (add_int (ttl_clock E) (7 * 24 * 60 * 60)) in
     let* ttl := lift_outcome (to_int expiry) in
     let item :=
       {| item_job_id := job_id;
          item_user_email := "unknown";
          item_file_key := file_key analysis_result;
          item_file_name := file_name analysis_result;
          item_file_size_mb := file_size_mb analysis_result;
          item_num_pages := num_pages analysis_result;
          item_estimated_transactions :=
            estimated_adobe_transactions analysis_result;
          item_complexity := complexity analysis_result;
          item_status := "pending_approval";
          item_created_at := analysis_timestamp analysis_result;
          item_ttl := ttl |} in
     let* _ := put_item item in
     ret {| analysis := analysis_result; job_id := Some job_id |})
    (fun _ => ret {| analysis := analysis_result; job_id := None |}).

(** The bucket and the key the event names. *)
Definition parse_event (ev : event) : outcome (string * string) :=
  match ev with
  | S3Notification Records =>
      match Records with
      | record :: _ =>
          Ok (s3_bucket_name record, unquote_plus (s3_object_key record))
      | [] => Raise IndexError
      end
  | DirectInvocation bucket key =>
      let! bucket := match bucket with
                     | Some b => Ok b
                     | None => Raise (KeyError "bucket")
                     end in
      let! key := match key with
                  | Some k => Ok k
                  | None => Raise (KeyError "key")
                  end in
      Ok (bucket, key)
  end.

(** The body of the [try] of [lambda_handler]. *)
Definition analyze_and_save (ev : event) : M world response :=
  let* named := lift_outcome (parse_event ev) in
  let bucket := fst named in
  let key := snd named in
  let* analysis_result :=
    lift_outcome (analyze_pdf (now E) (get_object E bucket key) key) in
  let* analysis_result := save_to_dynamodb analysis_result in
  ret {| statusCode := 200; body := Analysed analysis_result |}.

Definition lambda_handler (ev : event) : M world response :=
  try_except (analyze_and_save ev)
             (fun e => ret {| statusCode := 500; body := Failed (str_exn e) |}).
End Handler.

(** ** Worked runs *)

Definition one_second : float := nearest 1733752800.

Definition upload (doc : outcome pdf_document) (put_fails : bool) : env :=
  {| now := "2025-01-15T10:00:00+00:00";
     get_object := fun _ _ => doc;
     job_id_clock := one_second;
     ttl_clock := one_second;
     put_item_fails := put_fails |}.

Definition small_analysis (key : string) : analysis_result :=
  {| file_key := key; file_name := basename key;
     file_size_bytes := 2048; file_size_mb := zero; num_pages := 1;
     estimated_elements := 7; avg_elements_per_page := nearest 7;
     estimated_adobe_transactions := 7; estimated_cost_percentage := zero;
     pdf_title := "Unknown";
     analysis_timestamp := "2025-01-15T10:00:00+00:00";
     status := "analyzed"; complexity := "moderate" |}.

Definition uploaded (key : string) : event :=
  S3Notification [{| s3_bucket_name := "pdfaccessibility"; s3_object_key := key |}].

End Intake.

(* ===================================================================== *)
(** * app.py: the bucket notification that starts the pipeline            *)
(* ===================================================================== *)

Module Stack.

(** [key.endswith(suffix)] *)
Definition ends_with (key suffix : string) : bool :=
  let n := String.length key in
  let m := String.length suffix in
  (m <=? n)%nat && String.eqb (substring (n - m) m key) suffix.

(** [bucket.add_event_notification(OBJECT_CREATED, split_pdf_lambda,
    NotificationKeyFilter(prefix="pdf/"), NotificationKeyFilter(suffix=".pdf"))]:
    the keys whose creation invokes the split Lambda, which starts the
    state machine. *)
Definition invokes_split_pdf (key : string) : bool :=
  String.prefix "pdf/" key && ends_with key ".pdf".

End Stack.

Section IntakeVocabulary.
Import Float Analyzer Intake.



End IntakeVocabulary.

(** What a run returned, [d] when it raised. *)
Definition returned {A} (d : A) (o : outcome A) : A :=
  match o with Ok a => a | Raise _ => d end.

Section IntakeWorkedRuns.
Import Float Analyzer Intake.





End IntakeWorkedRuns.

Section ApprovalWorkedRuns.
Import Approval.

(** The approval of the analysed job of [one_job]. *)
Definition approved_run : outcome response * world :=
  lambda_handler all_up (approve_request "report.pdf_1733752800")
    (one_job "pending_approval").

(** A record written before the analyzer stored estimates. *)
Definition job_without_estimate : job :=
  {| status := Some "pending_approval";
     file_key := Some "pdf-upload/old.pdf";
     file_name := Some "old.pdf";
     estimated_transactions := None; approved_at := None |}.

Definition old_upload : world :=
  {| pending_jobs := {[ "old.pdf_1" := job_without_estimate ]};
     bucket := {[ "pdf-upload/old.pdf" := "%PDF-1.4" ]};
     object_created := [] |}.
End ApprovalWorkedRuns.

Section LedgerVocabulary.
Import Float Aws CloudWatch Quota.

(** The 42nd call of January 2025 under a limit of 100. *)
Definition january_call : outcome usage_report * Aws.world :=
  track_api_call calm (adobe (Some 100)) "AutotagPDF" true None (used 41).

(** One call of [track_api_call], with what the services did during it. *)
Record tracked_call : Type := {
  call_env : Aws.env;
  call_operation : string;
  call_success : bool;
  call_error_type : option string
}.

(** A counted call followed by a call recorded as failed. *)
Definition one_success_one_failure : list tracked_call :=
  [ {| call_env := calm; call_operation := "AutotagPDF";
       call_success := true; call_error_type := None |};
    {| call_env := calm; call_operation := "ExtractPDF";
       call_success := false; call_error_type := Some "Timeout" |} ].

(** The world after a sequence of calls on the same monitor. *)
Fixpoint track_all (self : QuotaMonitor) (calls : list tracked_call)
         (w : Aws.world) : Aws.world :=
  match calls with
  | [] => w
  | c :: rest =>
      track_all self rest
        (snd (track_api_call (call_env c) self (call_operation c)
                (call_success c) (call_error_type c) w))
  end.

(** The count the table holds for the monitor's API in period [p]. *)
Definition count_in (self : QuotaMonitor) (p : string) (w : Aws.world) : Z :=
  match usage_items w !! (api_name self, p) with
  | Some i => default 0 (item_usage_count i)
  | None => 0
  end.

(** The calls that reach the counter of period [p]: recorded as
    successful, with a table, during which [update_item] went through. *)
Definition counted (self : QuotaMonitor) (p : string) (c : tracked_call) : bool :=
  call_success c && bool_decide (is_Some (usage_table self))
  && negb (update_item_fails (call_env c))
  && String.eqb (period_key (call_env c)) p.

(** The data [put_api_call_metric] sends, in order. *)
Definition dimensions_of (api : string) (operation : option string)
  : list (string * string) :=
  match operation with
  | Some op => if truthy_str op then [("APIName", api); ("Operation", op)]
               else [("APIName", api)]
  | None => [("APIName", api)]
  end.

Definition datum (E : Aws.env) (name : string) (value : float) (unit_ : string)
           (dimensions : list (string * string)) : metric_datum :=
  {| MetricName := name; Value := value; Unit := unit_;
     Timestamp := timestamp E;
     Dimensions := match dimensions with [] => None | _ => Some dimensions end |}.

(** CloudWatch takes the datum named [name]: the client exists and the
    call goes through. *)
Definition accepts (E : Aws.env) (p : CloudWatchMetricsPublisher)
           (name : string) : bool :=
  bool_decide (is_Some (cloudwatch p)) && negb (put_metric_data_fails E name).
End LedgerVocabulary.

Section PageVocabulary.
Import Float Analyzer.

(** ['/' in s] *)
Fixpoint has_slash (s : string) : bool :=
  match s with
  | String c rest => (code c =? 47)%N || has_slash rest
  | EmptyString => false
  end.

(** The XObject entries of a page, when it has resources that list
    them and [get_object()] returns. *)
Definition xobjects_of (page : pdf_page) : list (string * option string) :=
  match Resources page with
  | Some r => match XObject r with
              | Some (Ok xs) => xs
              | _ => []
              end
  | None => []
  end.

(** What makes the counting of a page raise: the text cannot be
    extracted, the page has no ['/Resources'], the XObject dictionary
    cannot be resolved, or one of its entries has no ['/Subtype']. *)
Definition counting_raises (page : pdf_page) : bool :=
  negb (is_ok (extract_text page))
  || match Resources page with
     | None => true
     | Some r => match XObject r with
                 | None => false
                 | Some (Raise _) => true
                 | Some (Ok xs) =>
                     existsb (fun x => negb (bool_decide (is_Some (snd x)))) xs
                 end
     end.

(** The lines of the text of a page ([[]] when it cannot be extracted). *)
Definition lines_of (page : pdf_page) : list string :=
  match extract_text page with
  | Ok text => split_lines text
  | Raise _ => []
  end.

(** A document of [n] pages, all the same. *)
Definition uniform_doc (n : nat) (page : pdf_page) : pdf_document :=
  {| size_bytes := 2048; pages := replicate n page; metadata := None |}.

(** A page of one full line and an image. *)
Definition heavy_page : pdf_page :=
  {| extract_text := Ok "Summary of the findings";
     Resources := Some {| XObject := Some (Ok [("Im1", Some "/Image")]) |} |}.

(** The analysis of a one-page upload three folders deep. *)
Definition deep_upload : outcome analysis_result :=
  analyze_pdf "2025-01-15T10:00:00+00:00"
    (Ok (one_page_doc (plain_page seven_lines))) "team-a/2025/report.pdf".
End PageVocabulary.

Section ChunkVocabulary.
Import Workflow.

(** The history of iteration [i] of the Map: the two ECS tasks in a
    row, between the start and the success of the iteration. *)
Definition iteration_history (i : nat) : history :=
  [MapIterationStarted "Map" i;
   StateEntered "ECS RunTask" (Some i);
   StateExited "ECS RunTask" (Some i);
   StateEntered "ECS RunTask (1)" (Some i);
   StateExited "ECS RunTask (1)" (Some i);
   MapIterationSucceeded "Map" i].

(** The execution that takes the chunks one after the other and runs
    the verification branch last. *)
Definition one_by_one (items : nat) : history :=
  (StateEntered "ParallelState" None
     :: (main_branch_history (concat (map iteration_history (seq 0 items)))
           ++ verify_branch_history)
     ++ [join])%list.
End ChunkVocabulary.

#[global] Instance history_event_eq_dec : EqDecision Workflow.history_event.
Proof. solve_decision. Defined.

(* ===================================================================== *)
(** * Properties of the quota monitor                                     *)
(* ===================================================================== *)

Section QuotaFacts.
Import Float Aws CloudWatch Quota.

Variable E : Aws.env.


Lemma metrics_only_refl w : metrics_only w w.
Proof. repeat split; exists []; now rewrite app_nil_r. Qed.

Lemma metrics_only_trans w1 w2 w3 :
  metrics_only w1 w2 -> metrics_only w2 w3 -> metrics_only w1 w3.
Proof.
  intros (? & ? & n1 & H1) (? & ? & n2 & H2); repeat split; try congruence.
  exists (n1 ++ n2)%list. rewrite H2, H1. now rewrite app_assoc.
Qed.

Lemma put_metric_returns p name v u d w :
  exists b w', put_metric E p name v u d w = (Ok b, w') /\ metrics_only w w'.
Proof.
  unfold put_metric, try_except, bind, put_metric_data, raise, modify, ret.
  destruct (cloudwatch p); cbn.
  - destruct (put_metric_data_fails E name); cbn;
      eexists _, _; (split; [reflexivity | ]).
    + apply metrics_only_refl.
    + repeat split. cbn. eexists; reflexivity.
  - eexists _, _; split; [reflexivity | apply metrics_only_refl].
Qed.

Lemma put_api_call_metric_returns p api ok op w :
  exists b w',
    put_api_call_metric E p api ok op w = (Ok b, w') /\ metrics_only w w'.
Proof.
  unfold put_api_call_metric, bind.
  match goal with |- context [put_metric E p ?n ?v ?u ?d w] =>
    destruct (put_metric_returns p n v u d w) as (b1 & w1 & -> & F1) end.
  match goal with |- context [put_metric E p ?n ?v ?u ?d w1] =>
    destruct (put_metric_returns p n v u d w1) as (b2 & w2 & -> & F2) end.
  exists b2, w2; split; [reflexivity | eapply metrics_only_trans; eauto].
Qed.

Lemma put_error_metric_returns p api e op w :
  exists b w',
    put_error_metric E p api e op w = (Ok b, w') /\ metrics_only w w'.
Proof. unfold put_error_metric. apply put_metric_returns. Qed.

(** The quota gauge can only raise on the two int-to-float steps. *)
Lemma put_quota_usage_metric_frames p api u L w :
  exists r w',
    put_quota_usage_metric E p api u L w = (r, w') /\ metrics_only w w' /\
    (is_ok (of_int u) = true -> is_ok (truediv u L) = true -> is_ok r = true).
Proof.
  unfold put_quota_usage_metric, bind, lift_outcome.
  destruct (of_int u) as [x|e]; cbn.
  2:{ eexists _, _; split; [reflexivity|]. split; [apply metrics_only_refl|].
      discriminate. }
  match goal with |- context [put_metric E p ?n ?v ?un ?d w] =>
    destruct (put_metric_returns p n v un d w) as (b1 & w1 & -> & F1) end.
  destruct (L >? 0); cbn.
  - destruct (truediv u L) as [q|e]; cbn.
    + match goal with |- context [put_metric E p ?n ?v ?un ?d w1] =>
        destruct (put_metric_returns p n v un d w1) as (b2 & w2 & -> & F2) end.
      eexists _, _; split; [reflexivity|]. split; [|reflexivity].
      eapply metrics_only_trans; eauto.
    + eexists _, _; split; [reflexivity|]. split; [assumption|].
      intros _; discriminate.
  - match goal with |- context [put_metric E p ?n ?v ?un ?d w1] =>
      destruct (put_metric_returns p n v un d w1) as (b2 & w2 & -> & F2) end.
    eexists _, _; split; [reflexivity|]. split; [|reflexivity].
    eapply metrics_only_trans; eauto.
Qed.

Variable self : QuotaMonitor.

(** The counter step never raises; it changes the item of the current
    period at most, and reports 0 exactly when the ledger was not
    updated. *)
Lemma increment_usage_counter_returns op w :
  exists n w',
    _increment_usage_counter E self op w = (Ok n, w') /\
    sns_messages w' = sns_messages w /\
    cloudwatch_data w' = cloudwatch_data w /\
    ((usage_table self = None \/ update_item_fails E = true) ->
     n = 0 /\ w' = w).
Proof.
  unfold _increment_usage_counter, try_except, bind, update_item, raise,
    modify, get, ret.
  destruct (usage_table self) as [t|]; cbn.
  - destruct (update_item_fails E); cbn.
    + eexists _, _; repeat split; reflexivity.
    + eexists _, _; repeat split; try reflexivity;
        destruct H as [H|H]; discriminate.
  - eexists _, _; repeat split; reflexivity.
Qed.



Lemma send_alert_returns level text usage pct w :
  exists sent w',
    _send_alert E self level text usage pct w = (Ok sent, w') /\
    usage_items w' = usage_items w /\
    cloudwatch_data w' = cloudwatch_data w /\
    (sent = false -> w' = w) /\
    (sent = true ->
     exists arn, sns_messages w' =
                 (sns_messages w ++ [alert_message E self arn level text usage pct])%list) /\
    (sns_delivers E self -> sent = true).
Proof.
  unfold _send_alert, try_except, bind, publish, raise, modify, ret, sns_delivers.
  destruct (sns_client self) as [c|]; cbn.
  2:{ eexists _, _; repeat split; try reflexivity; try discriminate.
      intros ([]&_); congruence. }
  destruct (sns_topic_arn self) as [arn|]; cbn.
  2:{ eexists _, _; repeat split; try reflexivity; try discriminate.
      intros (_&(a&?&_)&_); congruence. }
  destruct (truthy_str arn) eqn:Harn; cbn.
  2:{ eexists _, _; repeat split; try reflexivity; try discriminate.
      intros (_&(a&Ha&Ht)&_). congruence. }
  destruct (publish_fails E) eqn:Hp; cbn.
  - eexists _, _; repeat split; try reflexivity; try discriminate.
    intros (_&_&?); congruence.
  - eexists _, _; repeat split; try reflexivity; try discriminate.
    intros _. exists arn. reflexivity.
Qed.
End QuotaFacts.

Section TrackUsage.
Import Float Aws CloudWatch Quota.

Variable E : Aws.env.
Variable self : QuotaMonitor.


Lemma outer_run {S L A} (c : M S A) (s : S) (l : L) r s' :
  c s = (r, s') -> outer c (s, l) = (r, (s', l)).
Proof. unfold outer; cbn; intros ->; reflexivity. Qed.

(** One run of the [try] body, step by step. *)
Lemma track_usage_run op ok w :
  exists n w1,
    _increment_usage_counter E self op w = (Ok n, w1) /\
    exists res w' r',
      track_usage E self op (w, fresh_report self ok) = (res, (w', r')) /\
      usage_count r' = n /\
      usage_items w' = usage_items w1 /\
      match limit_in_force self with
      | None => w' = w1 /\ r' = set_usage_count n (fresh_report self ok)
      | Some L =>
          match truediv n L with
          | Raise _ => w' = w1 /\ r' = set_usage_count n (fresh_report self ok)
          | Ok pct =>
              usage_percentage r' = pct /\
              exists w2 gauge,
                put_quota_usage_metric E (metrics_publisher self)
                  (api_name self) n L w1 = (gauge, w2) /\
                match gauge with
                | Raise _ =>
                    w' = w2 /\ alert_sent r' = false /\ quota_exceeded r' = false
                | Ok _ =>
                    quota_exceeded r' = ge pct one /\
                    match rung_of self pct with
                    | Below => w' = w2 /\ alert_sent r' = false
                    | g =>
                        _send_alert E self (level_of g) (text_of self g pct n L)
                          n pct w2 = (Ok (alert_sent r'), w')
                    end
                end
          end
      end.
Proof.
  destruct (increment_usage_counter_returns E self op w)
    as (n & w1 & Hinc & _).
  exists n, w1; split; [assumption|].
  unfold track_usage, limit_in_force, bind at 1.
  rewrite (outer_run _ _ _ _ _ Hinc).
  unfold bind at 1, set_local at 1; cbn [fst snd].
  destruct (quota_limit self) as [L|] eqn:HL.
  2:{ eexists _, _, _; split; [reflexivity|]. repeat split. }
  destruct (negb (L =? 0) && (L >? 0)) eqn:Hforce.
  2:{ eexists _, _, _; split; [reflexivity|]. repeat split. }
  unfold bind at 1, lift_outcome.
  destruct (truediv n L) as [pct|e] eqn:Hdiv.
  2:{ eexists _, _, _; split; [reflexivity|]. repeat split. }
  unfold bind at 1, set_local at 1; cbn [fst snd].
  unfold bind at 1.
  destruct (put_quota_usage_metric E (metrics_publisher self) (api_name self) n L w1)
    as [gauge w2] eqn:Hgauge.
  rewrite (outer_run _ _ _ _ _ Hgauge).
  assert (Hitems : usage_items w2 = usage_items w1).
  { destruct (put_quota_usage_metric_frames E (metrics_publisher self)
          (api_name self) n L w1) as (?&?&Hq&(?&?&?)&?). rewrite Hgauge in Hq.
    inversion Hq; subst; assumption. }
  destruct gauge as [b|e].
  2:{ eexists _, _, _; split; [reflexivity|]. cbn. repeat split.
      - assumption.
      - exists w2, (Raise e). repeat split. }
  unfold rung_of.
  destruct (ge pct one) eqn:H1.
  { unfold bind at 1, set_local at 1; cbn [fst snd]. unfold bind at 1.
    match goal with |- context [outer (_send_alert E self ?l ?t ?u ?p)] =>
      destruct (send_alert_returns E self l t u p w2)
        as (sent & w3 & Hs & Hi & _) end.
    rewrite (outer_run _ _ _ _ _ Hs). unfold set_local; cbn [fst snd].
    eexists _, _, _; split; [reflexivity|]. cbn. repeat split; try congruence.
    exists w2, (Ok b); repeat split; assumption. }
  destruct (ge pct (critical_threshold self)) eqn:H2.
  { unfold bind at 1.
    match goal with |- context [outer (_send_alert E self ?l ?t ?u ?p)] =>
      destruct (send_alert_returns E self l t u p w2)
        as (sent & w3 & Hs & Hi & _) end.
    rewrite (outer_run _ _ _ _ _ Hs). unfold set_local; cbn [fst snd].
    eexists _, _, _; split; [reflexivity|]. cbn. repeat split; try congruence.
    exists w2, (Ok b); repeat split; assumption. }
  destruct (ge pct (warning_threshold self)) eqn:H3.
  { unfold bind at 1.
    match goal with |- context [outer (_send_alert E self ?l ?t ?u ?p)] =>
      destruct (send_alert_returns E self l t u p w2)
        as (sent & w3 & Hs & Hi & _) end.
    rewrite (outer_run _ _ _ _ _ Hs). unfold set_local; cbn [fst snd].
    eexists _, _, _; split; [reflexivity|]. cbn. repeat split; try congruence.
    exists w2, (Ok b); repeat split; assumption. }
  eexists _, _, _; split; [reflexivity|]. cbn. repeat split; try congruence.
  exists w2, (Ok b); repeat split; assumption.
Qed.
End TrackUsage.

Section TrackApiCall.
Import Float Aws CloudWatch Quota.

Variable E : Aws.env.
Variable self : QuotaMonitor.


Lemma error_metric_step_returns op err w :
  exists b w', error_metric_step E self op err w = (Ok b, w') /\ metrics_only w w'.
Proof.
  unfold error_metric_step.
  destruct err as [e|]; [destruct (truthy_str e)|].
  - apply put_error_metric_returns.
  - eexists _, _; split; [reflexivity | apply metrics_only_refl].
  - eexists _, _; split; [reflexivity | apply metrics_only_refl].
Qed.

(** [track_api_call] always returns: the two metrics first, then the
    [try] body when the call succeeded and a table is there. *)
Lemma track_api_call_run op ok err w :
  exists b1 w1 b2 w2,
    put_api_call_metric E (metrics_publisher self) (api_name self) ok (Some op) w
      = (Ok b1, w1) /\
    error_metric_step E self op err w1 = (Ok b2, w2) /\
    metrics_only w w1 /\ metrics_only w1 w2 /\
    if ok && bool_decide (is_Some (usage_table self)) then
      exists res w' r',
        track_usage E self op (w2, fresh_report self ok) = (res, (w', r')) /\
        track_api_call E self op ok err w = (Ok r', w')
    else track_api_call E self op ok err w = (Ok (fresh_report self ok), w2).
Proof.
  destruct (put_api_call_metric_returns E (metrics_publisher self)
              (api_name self) ok (Some op) w) as (b1 & w1 & H1 & F1).
  destruct (error_metric_step_returns op err w1) as (b2 & w2 & H2 & F2).
  exists b1, w1, b2, w2. repeat (split; [assumption|]).
  destruct (ok && bool_decide (is_Some (usage_table self))) eqn:Hc.
  - destruct (track_usage E self op (w2, fresh_report self ok))
      as [res [w' r']] eqn:Hbody.
    exists res, w', r'; split; [reflexivity|].
    unfold track_api_call, bind. rewrite H1.
    fold (error_metric_step E self op err). rewrite H2, Hc.
    unfold with_local, try_except. fold (fresh_report self ok).
    rewrite Hbody. destruct res; reflexivity.
  - unfold track_api_call, bind. rewrite H1.
    fold (error_metric_step E self op err). rewrite H2, Hc. reflexivity.
Qed.
End TrackApiCall.

Section Alerts.
Import Float Aws CloudWatch Quota.

Variable E : Aws.env.
Variable self : QuotaMonitor.

End Alerts.

Section QuotaClaims.
Import Float Aws CloudWatch Quota.



End QuotaClaims.

Section Publishing.
Import Float Aws CloudWatch Quota.

Variable E : Aws.env.









Variable self : QuotaMonitor.

End Publishing.

Section LedgerClaims.
Import Float Aws CloudWatch Quota.

(** Reading the usage never raises and changes nothing. *)
Lemma get_current_usage_returns E self w :
  exists info, get_current_usage E self w = (Ok info, w).
Proof.
  cbv [get_current_usage try_except bind Aws.get_item raise get ret lift_outcome].
  destruct (usage_table self); [|eexists; reflexivity].
  destruct (Aws.get_item_fails E); [eexists; reflexivity|].
  destruct (usage_items w !! (api_name self, period_key E)) as [i|];
    [|eexists; reflexivity].
  destruct (quota_limit self) as [L|]; [|eexists; reflexivity].
  destruct (L =? 0); [eexists; reflexivity|].
  destruct (truediv _ L); eexists; reflexivity.
Qed.

(** Without a table, or when [get_item] fails, the dict carries
    ["error"]. *)
Lemma get_current_usage_error E self w :
  usage_table self = None \/ get_item_fails E = true ->
  exists msg, get_current_usage E self w = (Ok {[ "error" := VStr msg ]}, w).
Proof.
  cbv [get_current_usage try_except bind Aws.get_item raise get ret lift_outcome].
  intros [H|H].
  - rewrite H. eexists; reflexivity.
  - destruct (usage_table self); [rewrite H|]; eexists; reflexivity.
Qed.


(** The two shapes of the dict: an error, or the count of the period. *)
Lemma get_current_usage_cases E self w :
  exists info,
    get_current_usage E self w = (Ok info, w) /\
    (is_Some (info !! "error") \/
     (info !! "error" = None /\
      info !! "usage_count" = Some (VInt (current_count E self w)) /\
      usage_table self <> None /\ Aws.get_item_fails E = false)).
Proof.
  cbv [get_current_usage try_except bind Aws.get_item raise get ret lift_outcome
       current_count].
  destruct (usage_table self);
    [|eexists; split; [reflexivity | left; vm_compute; eauto]].
  destruct (Aws.get_item_fails E);
    [eexists; split; [reflexivity | left; rewrite lookup_singleton_eq; eauto]|].
  destruct (usage_items w !! (api_name self, period_key E)) as [i|].
  2:{ eexists; split; [reflexivity|]. right. repeat split; try discriminate;
      vm_compute; reflexivity. }
  destruct (quota_limit self) as [L|].
  2:{ eexists; split; [reflexivity|]. right. repeat split; try discriminate;
      vm_compute; reflexivity. }
  destruct (L =? 0).
  { eexists; split; [reflexivity|]. right. repeat split; try discriminate;
      vm_compute; reflexivity. }
  destruct (truediv _ L).
  - eexists; split; [reflexivity|]. right. repeat split; try discriminate;
      vm_compute; reflexivity.
  - eexists; split; [reflexivity | left; rewrite lookup_singleton_eq; eauto].
Qed.

Lemma check_quota_available_returns E self w :
  exists b, check_quota_available E self w = (Ok b, w).
Proof.
  unfold check_quota_available.
  destruct (quota_limit self) as [L|]; [|eexists; reflexivity].
  destruct (L =? 0); [eexists; reflexivity|].
  unfold bind at 1.
  destruct (get_current_usage_cases E self w) as (info & -> & [He|(He&Hc&_)]).
  - rewrite bool_decide_eq_true_2 by assumption. eexists; reflexivity.
  - rewrite bool_decide_eq_false_2 by (rewrite He; intros [? ?]; discriminate).
    rewrite Hc. eexists; reflexivity.
Qed.

(** With a limit set and the usage readable, the answer is the
    comparison of the count with the limit, whatever the sign of the
    limit. *)
Lemma check_quota_available_compares E self L w :
  quota_limit self = Some L -> L <> 0 ->
  (exists info, get_current_usage E self w = (Ok info, w) /\
                info !! "error" = None) ->
  check_quota_available E self w = (Ok (current_count E self w <? L), w).
Proof.
  intros HL Hnz (info & Hget & Herr).
  unfold check_quota_available. rewrite HL.
  destruct (Z.eqb_spec L 0); [contradiction|].
  unfold bind at 1.
  destruct (get_current_usage_cases E self w) as (info' & Hget' & Hcases).
  rewrite Hget in Hget'. inversion Hget'; subst info'. rewrite Hget.
  destruct Hcases as [He|(He&Hc&_)].
  - rewrite Herr in He. destruct He; discriminate.
  - rewrite bool_decide_eq_false_2 by (rewrite He; intros [? ?]; discriminate).
    rewrite Hc. reflexivity.
Qed.

(** C9: with a limit L > 0, when the usage lookup answers with an error
    the admission check returns True and changes nothing. *)
Theorem check_quota_available_fails_open :
  forall (E : Aws.env) (self : QuotaMonitor) (L : Z) (w : Aws.world)
         (info : gmap string value),
    quota_limit self = Some L -> 0 < L ->
    get_current_usage E self w = (Ok info, w) ->
    is_Some (info !! "error") ->
    check_quota_available E self w = (Ok true, w).
Proof.
  intros E self L w info HL Hpos Hget Herr.
  unfold check_quota_available. rewrite HL.
  destruct (Z.eqb_spec L 0); [lia|].
  unfold bind at 1. rewrite Hget.
  rewrite bool_decide_eq_true_2 by assumption. reflexivity.
Qed.


Lemma check_quota_available_fails_open_witness :
  check_quota_available table_read_down (adobe (Some 100)) (used 100)
  = (Ok true, used 100).
Proof.
  apply (check_quota_available_fails_open table_read_down (adobe (Some 100)) 100
           (used 100) {[ "error" := VStr (str_exn (ClientError "GetItem")) ]}).
  - reflexivity.
  - lia.
  - reflexivity.
  - rewrite lookup_singleton_eq. eexists; reflexivity.
Defined.

(** C1, the part the code breaks: a negative limit is not treated as
    unlimited; with no usage at all the check denies. *)
Theorem check_quota_available_negative_limit_denies :
  check_quota_available calm (adobe (Some (-1))) (used 0) = (Ok false, used 0).
Proof. vm_compute. reflexivity. Qed.

(** C1, the part that holds: for L > 0 and a readable count U the check
    denies exactly when U >= L; without a limit, or with limit 0, it
    admits. *)
Lemma check_quota_available_positive_limit E self L w info :
  quota_limit self = Some L -> 0 < L ->
  get_current_usage E self w = (Ok info, w) -> info !! "error" = None ->
  exists b, check_quota_available E self w = (Ok b, w) /\
            (b = false <-> current_count E self w >= L).
Proof.
  intros HL Hpos Hget Herr.
  rewrite (check_quota_available_compares E self L w HL) by (lia || eauto).
  eexists; split; [reflexivity|].
  destruct (Z.ltb_spec (current_count E self w) L); split; intros; lia || congruence.
Qed.

Lemma check_quota_available_unlimited E self w :
  quota_limit self = None \/ quota_limit self = Some 0 ->
  check_quota_available E self w = (Ok true, w).
Proof. unfold check_quota_available. intros [-> | ->]; reflexivity. Qed.
End LedgerClaims.

Section RecordClaims.
Import Float Aws CloudWatch Quota.

(** C5: a call recorded with success=False never reaches the counter:
    the usage table is left as it was and the report keeps
    usage_count 0; a call that changes the table was recorded with
    success=True; the admission check itself changes nothing. *)
Theorem track_api_call_failure_not_counted :
  forall (E : Aws.env) (self : QuotaMonitor) (op : string)
         (err : option string) (w : Aws.world),
    (exists r w',
        track_api_call E self op false err w = (Ok r, w') /\
        usage_count r = 0 /\
        usage_items w' = usage_items w /\
        sns_messages w' = sns_messages w) /\
    (forall ok,
        usage_items (snd (track_api_call E self op ok err w)) = usage_items w \/
        ok = true) /\
    snd (check_quota_available E self w) = w.
Proof.
  intros E self op err w.
  assert (Hfalse : exists r w',
             track_api_call E self op false err w = (Ok r, w') /\
             usage_count r = 0 /\
             usage_items w' = usage_items w /\
             sns_messages w' = sns_messages w).
  { destruct (track_api_call_run E self op false err w)
      as (b1 & w1 & b2 & w2 & _ & _ & (I1 & S1 & _) & (I2 & S2 & _) & Hrun).
    cbn in Hrun. exists (fresh_report self false), w2.
    repeat split; [assumption | congruence | congruence]. }
  split; [exact Hfalse|]. split.
  - intros [|]; [now right|left].
    destruct Hfalse as (r & w' & -> & _ & H & _). exact H.
  - destruct (check_quota_available_returns E self w) as (b & ->). reflexivity.
Qed.





(** Scenario 2 of the spec: limit 100, usage 96, one successful call. *)
Example scenario_critical_at_97 :
  exists r w' m,
    track_api_call calm (adobe (Some 100)) "AutotagPDF" true None (used 96)
    = (Ok r, w') /\
    usage_count r = 97 /\ quota_exceeded r = false /\ alert_sent r = true /\
    sns_messages w' = [m] /\
    Subject m = "[CRITICAL] PDF Accessibility - AdobeAPI Quota Alert".
Proof. eexists _, _, _. vm_compute. repeat split. Qed.

(** A tracked successful call on a table with counts >= 0 reports a
    count of at least 1, so usage_count 0 on a successful call means the
    ledger was not reached. *)
Lemma tracked_call_counts_at_least_one E self op err w :
  usage_table self <> None -> update_item_fails E = false ->
  0 <= current_count E self w ->
  exists r w', track_api_call E self op true err w = (Ok r, w') /\
               usage_count r = current_count E self w + 1 /\
               1 <= usage_count r.
Proof.
  intros Ht Hu Hc.
  destruct (track_api_call_run E self op true err w)
    as (b1 & w1 & b2 & w2 & _ & _ & (I1 & _) & (I2 & _) & Hrun).
  rewrite (bool_decide_eq_true_2 _) in Hrun
    by (destruct (usage_table self); [eauto | congruence]).
  cbn in Hrun. destruct Hrun as (res & w' & r' & Hbody & Hcall).
  exists r', w'; split; [assumption|].
  cut (usage_count r' = current_count E self w + 1); [intros ->; split; [reflexivity | lia]|].
  destruct (track_usage_run E self op true w2)
    as (n & w3 & Hinc & res' & w'' & r'' & Hbody' & Hn & _).
  rewrite Hbody in Hbody'. inversion Hbody'; subst. clear Hbody'.
  revert Hinc.
  cbv [_increment_usage_counter try_except bind update_item raise get modify ret].
  destruct (usage_table self); [|congruence]. rewrite Hu.
  intros Hinc; inversion Hinc; subst. cbn.
  unfold current_count. rewrite <- I1, <- I2.
  destruct (usage_items w2 !! (api_name self, period_key E)); reflexivity.
Qed.
End RecordClaims.

(* ===================================================================== *)
(** * Properties of the cost estimator                                    *)
(* ===================================================================== *)

Section AnalyzerFacts.
Import Float Analyzer.


Lemma count_elements_floor page n : count_elements page = Ok n -> 5 <= n.
Proof.
  unfold count_elements, and_then.
  destruct (extract_text page); [|discriminate].
  destruct (Resources page) as [res|]; [|discriminate].
  destruct (XObject res) as [[xs|]|]; try discriminate.
  - destruct (image_names xs); [|discriminate].
    intros H; inversion H; lia.
  - intros H; inversion H; lia.
Qed.

Lemma estimate_elements_floor page : 5 <= estimate_elements_from_page page.
Proof.
  unfold estimate_elements_from_page.
  destruct (count_elements page) eqn:H; [eapply count_elements_floor; eauto | lia].
Qed.

Lemma sampled_total_floor ps : 5 * Z.of_nat (length ps) <= sampled_total ps.
Proof.
  induction ps as [|p ps IH]; cbn [sampled_total map fold_right length].
  - lia.
  - fold (sampled_total ps). pose proof (estimate_elements_floor p). lia.
Qed.

(** The loop over [range(sample_size)] adds up the estimates of the
    pages it indexes and never raises inside the document. *)
Lemma sample_loop_sums pages k : forall i acc,
  (i + k <= length pages)%nat ->
  sample_loop pages (seq i k) acc
  = Ok (acc + sampled_total (firstn k (drop i pages))).
Proof.
  induction k as [|k IH]; intros i acc Hlen; cbn [seq sample_loop].
  - change (firstn 0 (drop i pages)) with (@nil pdf_page).
    unfold sampled_total; cbn. f_equal. lia.
  - destruct (pages !! i) as [page|] eqn:Hi.
    2:{ apply lookup_ge_None in Hi. lia. }
    rewrite IH by lia.
    rewrite (drop_S _ _ _ Hi). cbn [firstn sampled_total map fold_right].
    fold (sampled_total (firstn k (drop (S i) pages))). f_equal. lia.
Qed.

Lemma sample_loop_first_pages pages :
  sample_loop pages (seq 0 (Nat.min (length pages) 10)) 0
  = Ok (sampled_total (firstn 10 pages)).
Proof.
  rewrite sample_loop_sums by lia. rewrite drop_0. f_equal.
  rewrite Z.add_0_l. f_equal.
  destruct (Nat.le_ge_cases (length pages) 10) as [H|H].
  - rewrite Nat.min_l by assumption.
    rewrite !firstn_all2 by lia. reflexivity.
  - rewrite Nat.min_r by assumption. reflexivity.
Qed.





(** A document with no page: [sample_size] is 0 and the average raises
    [ZeroDivisionError], which [analyze_pdf] re-raises. *)
Example analyze_pdf_empty_document :
  analyze_pdf "2025-01-15T10:00:00+00:00"
    (Ok {| size_bytes := 2048; pages := []; metadata := None |})
    "pdf-upload/a.pdf" = Raise ZeroDivisionError.
Proof. vm_compute. reflexivity. Qed.

End AnalyzerFacts.

(* ===================================================================== *)
(** * Properties of the approval gate                                     *)
(* ===================================================================== *)

Section ApprovalFacts.
Import Approval.


Lemma approves_request id : truthy_str id = true -> approves (approve_request id) id.
Proof.
  intros H. eexists; split; [reflexivity|]. repeat split; assumption.
Qed.

Variable E : env.


Lemma lambda_handler_approval ev id w :
  approves ev id -> get_item_fails E = false ->
  lambda_handler E ev w =
  try_except (after_lookup E id (pending_jobs w !! id))
             (fun e => ret (failure 500 (str_exn e))) w.
Proof.
  intros (b & Hb & Hid & Hne & Hua) Hget.
  unfold lambda_handler, try_except, start_remediation.
  unfold bind at 1.
  replace (match ev with
           | BodyText loaded => lift_outcome loaded
           | BodyDict b0 => ret b0
           | Direct b0 => ret b0
           end w) with (Ok b, w)
    by (destruct ev; cbn in Hb;
        [subst loaded | injection Hb as -> | injection Hb as ->]; reflexivity).
  rewrite Hid.
  change (truthy (default JNull (Some (JStr id)))) with (truthy_str id).
  rewrite Hne, Hua. cbn [negb].
  change (default JNull (Some (JStr id))) with (JStr id).
  unfold bind at 1. unfold get_item. rewrite Hget.
  unfold bind at 1, get, ret. cbn [fst snd]. reflexivity.
Qed.
End ApprovalFacts.

Section ApprovalClaims.
Import Approval.

Ltac returns := eexists _, _; split; [reflexivity|].
Ltac nothing_written :=
  try (returns; apply wrote_nothing; [reflexivity | discriminate]).
Ltac stranded Hjob :=
  returns; eapply wrote_processing;
  [eassumption | assumption | cbn; rewrite Hjob; reflexivity
  | right; split; [reflexivity | auto]].
Ltac reverted Hjob :=
  returns; eapply wrote_pending_approval;
  [eassumption | assumption
  | cbn; rewrite Hjob; cbn;
    rewrite ?lookup_insert_eq, ?insert_insert_eq; reflexivity
  | reflexivity].

Lemma lambda_handler_written E ev w :
  exists r w', lambda_handler E ev w = (Ok r, w') /\ written E w r w'.
Proof.
  cbv [lambda_handler start_remediation after_lookup try_except bind
       lift_outcome ret get_item raise get update_item copy_object modify item].
  destruct ev as [[b|e]|b|b]; nothing_written.
  all: destruct (negb (truthy (default JNull (b !! "job_id")))); nothing_written.
  all: destruct (negb (truthy (default (JBool false) (b !! "user_approved"))));
    nothing_written.
  all: destruct (default JNull (b !! "job_id")) as [| | |jid]; nothing_written.
  all: destruct (get_item_fails E); nothing_written.
  all: cbn [fst snd]; destruct (pending_jobs w !! jid) as [job|] eqn:Hjob;
    nothing_written.
  all: destruct (bool_decide (status job = Some "processing")) eqn:Hst;
    nothing_written.
  all: apply bool_decide_eq_false in Hst.
  all: destruct (flip_fails E); nothing_written.
  all: destruct (file_key job) as [k|] eqn:Hk; [|stranded Hjob].
  all: destruct (file_name job) as [f|] eqn:Hf; [|stranded Hjob].
  all: destruct (revert_fails E) eqn:Hr.
  all: destruct (copy_object_fails E);
    [first [stranded Hjob | reverted Hjob]|].
  all: cbn [bucket]; destruct (bucket w !! k) as [content|];
    [|first [stranded Hjob | reverted Hjob]].
  all: destruct (estimated_transactions job) as [est|] eqn:Hest;
    [|first [stranded Hjob | reverted Hjob]].
  all: returns; eapply wrote_processing;
    [eassumption | assumption | cbn; rewrite Hjob; reflexivity | now left].
Qed.
End ApprovalClaims.

Section ApprovalTheorems.
Import Approval.

Lemma status_of_insert w w' id j id' :
  pending_jobs w' = <[id := j]> (pending_jobs w) ->
  status_of w' id' = if decide (id = id') then status j else status_of w id'.
Proof.
  unfold status_of. intros ->. destruct (decide (id = id')) as [->|Hne].
  - rewrite lookup_insert_eq. reflexivity.
  - rewrite lookup_insert_ne by assumption. reflexivity.
Qed.





(** Two approvals in a row of a pending job. *)
Example approve_twice :
  exists r1 w1 r2,
    lambda_handler all_up (approve_request "report.pdf_1733752800")
      (one_job "pending_approval") = (Ok r1, w1) /\
    statusCode r1 = 200 /\
    lambda_handler all_up (approve_request "report.pdf_1733752800") w1
    = (Ok r2, w1) /\
    statusCode r2 = 409.
Proof. eexists _, _, _. vm_compute. repeat split. Qed.

(** C3 as the code has it: the handler always answers; when the copy
    fails after the flip, the compensating write goes through and the
    record names its file, the answer is 500, the job is back in
    pending_approval and nothing was put under pdf/; and as long as the
    compensating write does not fail and the records name their files,
    an error answer leaves no job in processing that was not there
    before. *)
Theorem approve_compensates_failed_dispatch :
  forall (E : env) (ev : event) (w : world),
    revert_fails E = false ->
    (forall id job, pending_jobs w !! id = Some job ->
                    file_key job <> None /\ file_name job <> None) ->
    exists r w',
      lambda_handler E ev w = (Ok r, w') /\
      (forall id job k,
          approves ev id -> get_item_fails E = false ->
          pending_jobs w !! id = Some job ->
          status job <> Some "processing" ->
          flip_fails E = false ->
          file_key job = Some k ->
          copy_object_fails E = true \/ bucket w !! k = None ->
          statusCode r = 500 /\
          status_of w' id = Some "pending_approval" /\
          bucket w' = bucket w /\
          object_created w' = object_created w) /\
      (statusCode r <> 200 ->
       forall id, status_of w' id = Some "processing" ->
                  status_of w id = Some "processing").
Proof.
  intros E ev w Hrev Hfiles.
  destruct (lambda_handler_written E ev w) as (r & w' & Hrun & Hw).
  exists r, w'. split; [assumption|]. split.
  - intros id job k Ha Hg Hjob Hst Hflip Hk Hcopy.
    destruct (Hfiles id job Hjob) as [_ Hname].
    destruct (file_name job) as [f|] eqn:Hf; [|congruence].
    rewrite (lambda_handler_approval E ev id w Ha Hg) in Hrun.
    revert Hrun.
    cbv [after_lookup try_except bind ret raise get update_item copy_object
         modify item].
    rewrite Hjob, (bool_decide_eq_false_2 _ Hst), Hflip, Hk, Hf, Hrev.
    cbn [bucket].
    destruct (copy_object_fails E) eqn:Hc.
    + intros H; inversion H; subst; cbn. repeat split.
      unfold status_of; cbn. rewrite !lookup_insert_eq. reflexivity.
    + destruct Hcopy as [? | Hnone]; [discriminate|].
      cbn [bucket]. rewrite Hnone.
      intros H; inversion H; subst; cbn. repeat split.
      unfold status_of; cbn. rewrite !lookup_insert_eq. reflexivity.
  - intros Herr id Hproc.
    destruct Hw as [-> _ | jid job Hjob Hst Hmap Hcode | jid job Hjob Hst Hmap Hcode].
    + assumption.
    + destruct (Hfiles jid job Hjob) as [Hk Hf].
      destruct Hcode as [H200 | (_ & [Hn | [Hn | Hn]])]; congruence.
    + rewrite (status_of_insert w w' jid _ id Hmap) in Hproc.
      destruct (decide (jid = id)); [discriminate | assumption].
Qed.

Lemma approve_compensates_failed_dispatch_witness :
  exists r w',
    lambda_handler (copy_down false) (approve_request "report.pdf_1733752800")
      (one_job "pending_approval") = (Ok r, w') /\
    statusCode r = 500 /\
    status_of w' "report.pdf_1733752800" = Some "pending_approval".
Proof.
  destruct (approve_compensates_failed_dispatch (copy_down false)
              (approve_request "report.pdf_1733752800")
              (one_job "pending_approval") eq_refl)
    as (r & w' & Hrun & Hfail & _).
  - intros id job Hjob. unfold one_job in Hjob; cbn in Hjob.
    apply lookup_singleton_Some in Hjob as [_ <-]. split; discriminate.
  - exists r, w'. split; [assumption|].
    destruct (Hfail "report.pdf_1733752800" (analyzed_job "pending_approval")
                    "pdf-upload/report.pdf") as (Hc & Hs & _);
      try reflexivity; auto.
    apply approves_request. reflexivity.
Defined.

(** C3 as stated fails: when the copy and then the compensating write
    both fail, the answer is 500 and the job stays in processing with
    nothing placed under pdf/. *)
Lemma approve_strands_job_when_rollback_fails :
  exists r w',
    lambda_handler (copy_down true) (approve_request "report.pdf_1733752800")
      (one_job "pending_approval") = (Ok r, w') /\
    statusCode r = 500 /\
    status_of (one_job "pending_approval") "report.pdf_1733752800"
    = Some "pending_approval" /\
    status_of w' "report.pdf_1733752800" = Some "processing" /\
    object_created w' = [].
Proof. eexists _, _. vm_compute. repeat split. Qed.
End ApprovalTheorems.

(* ===================================================================== *)
(** * Properties of the workflow definition                               *)
(* ===================================================================== *)

Section WorkflowFacts.
Import Workflow.

(** ** Lists *)




End WorkflowFacts.

Section Merging.
Import Workflow.



Lemma merge2_sym h1 h2 h : merge2 h1 h2 h -> merge2 h2 h1 h.
Proof. induction 1; constructor; assumption. Qed.






End Merging.

Section WorkflowClaims.
Import Workflow.









End WorkflowClaims.

(* ===================================================================== *)
(** * Further properties of the code                                      *)
(* ===================================================================== *)

Section LedgerFacts.
Import Float Aws CloudWatch Quota.

Variable E : Aws.env.
Variable self : QuotaMonitor.

(** What one call does to the ledger: when it was recorded as successful,
    a table is there and [update_item] goes through, the item of the
    current period is replaced by the incremented one and the report
    carries the new count; otherwise the table is left alone and the
    report says 0. *)
Lemma track_api_call_ledger op ok err w :
  exists r w',
    track_api_call E self op ok err w = (Ok r, w') /\
    if ok && bool_decide (is_Some (usage_table self))
       && negb (update_item_fails E)
    then usage_items w'
         = <[(api_name self, period_key E) :=
               add_usage E (usage_items w !! (api_name self, period_key E)) 1 op]>
             (usage_items w) /\
         usage_count r = count_in self (period_key E) w + 1
    else usage_items w' = usage_items w /\ usage_count r = 0.
Proof.
  destruct (track_api_call_run E self op ok err w)
    as (b1 & w1 & b2 & w2 & _ & _ & (I1 & _) & (I2 & _) & Hrun).
  destruct (ok && bool_decide (is_Some (usage_table self))) eqn:Hc.
  2:{ exists (fresh_report self ok), w2. split; [assumption|].
      cbn. split; [congruence | reflexivity]. }
  destruct Hrun as (res & w' & r' & Hbody & Hcall).
  exists r', w'. split; [assumption|].
  destruct (track_usage_run E self op ok w2)
    as (n & w3 & Hinc & res' & w'' & r'' & Hbody' & Hn & Hitems & _).
  rewrite Hbody in Hbody'. inversion Hbody'; subst res' w'' r''. clear Hbody'.
  apply andb_prop in Hc as [_ Ht]. apply bool_decide_eq_true in Ht.
  destruct Ht as [t Ht].
  revert Hinc.
  cbv [_increment_usage_counter try_except bind update_item raise get modify ret].
  rewrite Ht. destruct (update_item_fails E); cbn [negb andb].
  - intros [= <- <-]. split; [congruence | assumption].
  - intros [= <- <-]. cbn in Hitems. rewrite Hitems, Hn, I2, I1.
    split; [reflexivity|]. unfold count_in, add_usage; cbn.
    destruct (usage_items w !! (api_name self, period_key E)); reflexivity.
Qed.
End LedgerFacts.

Section LedgerTheorems.
Import Float Aws CloudWatch Quota.

Lemma period_eqb_spec (p q : string) : (p =? q)%string = true <-> p = q.
Proof. apply String.eqb_eq. Qed.

(** One call moves the count of period [p] by one when it is counted
    there, and not at all otherwise. *)
Lemma track_api_call_count_step self p c w :
  count_in self p
    (snd (track_api_call (call_env c) self (call_operation c)
            (call_success c) (call_error_type c) w))
  = count_in self p w + (if counted self p c then 1 else 0).
Proof.
  destruct (track_api_call_ledger (call_env c) self (call_operation c)
              (call_success c) (call_error_type c) w) as (r & w' & -> & H).
  cbn [snd]. unfold counted.
  destruct (call_success c && bool_decide (is_Some (usage_table self))
            && negb (update_item_fails (call_env c))); cbn [andb].
  - destruct H as [Hitems _]. unfold count_in at 1. rewrite Hitems.
    destruct (String.eqb_spec (period_key (call_env c)) p) as [->|Hne].
    + rewrite lookup_insert_eq. unfold add_usage, count_in; cbn.
      destruct (usage_items w !! (api_name self, p)); reflexivity.
    + rewrite lookup_insert_ne by congruence. unfold count_in. lia.
  - destruct H as [Hitems _]. unfold count_in. rewrite Hitems. lia.
Qed.

(** X2: over any sequence of calls on one monitor, the count the table
    holds for a period grows by exactly the number of calls that were
    recorded as successful in that period while [update_item] went
    through; failed calls and calls made during a ledger outage are
    never counted, nor made up for later. *)
Theorem ledger_counts_tracked_successes :
  forall (self : QuotaMonitor) (p : string) (calls : list tracked_call)
         (w : Aws.world),
    count_in self p (track_all self calls w)
    = count_in self p w
      + Z.of_nat (length (filter (fun c => counted self p c) calls)).
Proof.
  intros self p calls. induction calls as [|c calls IH]; intros w.
  - cbn. lia.
  - cbn [track_all]. rewrite IH, track_api_call_count_step.
    rewrite filter_cons. destruct (decide (counted self p c)) as [H|H].
    + apply Is_true_true in H. rewrite H. cbn [length]. lia.
    + apply Is_true_false in H. rewrite H. lia.
Qed.

(** Three calls in January 2025: one counted, one during an outage of
    the table, one recorded as failed. *)
Example ledger_counts_one_of_three :
  count_in (adobe (Some 100)) "2025-01"
    (track_all (adobe (Some 100))
       [ {| call_env := calm; call_operation := "AutotagPDF";
            call_success := true; call_error_type := None |};
         {| call_env := table_write_down; call_operation := "ExtractPDF";
            call_success := true; call_error_type := None |};
         {| call_env := calm; call_operation := "AutotagPDF";
            call_success := false; call_error_type := Some "Timeout" |} ]
       (used 41)) = 42.
Proof. vm_compute. reflexivity. Qed.

(** X3: a call touches the item of its own API and period only, and
    the first counted call of a period that has no item yet reports
    usage_count 1, whatever the earlier periods hold (the count starts
    over each month). *)
Theorem track_api_call_keeps_other_periods :
  forall (E : Aws.env) (self : QuotaMonitor) (op : string) (ok : bool)
         (err : option string) (w : Aws.world),
    exists r w',
      track_api_call E self op ok err w = (Ok r, w') /\
      (forall key, key <> (api_name self, period_key E) ->
                   usage_items w' !! key = usage_items w !! key) /\
      (ok = true -> usage_table self <> None -> update_item_fails E = false ->
       usage_items w !! (api_name self, period_key E) = None ->
       usage_count r = 1).
Proof.
  intros E self op ok err w.
  destruct (track_api_call_ledger E self op ok err w) as (r & w' & Hrun & H).
  exists r, w'. split; [assumption|].
  destruct (ok && bool_decide (is_Some (usage_table self))
            && negb (update_item_fails E)) eqn:Hc.
  - destruct H as [Hitems Hcount]. split.
    + intros key Hne. rewrite Hitems. apply lookup_insert_ne. congruence.
    + intros _ _ _ Hnone. rewrite Hcount. unfold count_in. rewrite Hnone.
      reflexivity.
  - destruct H as [Hitems _]. split; [intros; rewrite Hitems; reflexivity|].
    intros -> Ht Hu _. rewrite Hu in Hc. cbn in Hc.
    rewrite bool_decide_eq_true_2 in Hc; [discriminate|].
    destruct (usage_table self); [eauto | congruence].
Qed.

(** X4: what a counted call wrote is what [get_current_usage] reads
    back: after a call recorded as successful while the table took the
    update, a readable usage report for the same period carries the
    usage_count of the call's report, the operation of the call as
    last_operation and the time of the call as last_updated. *)
Theorem get_current_usage_reads_back_tracked_call :
  forall (E : Aws.env) (self : QuotaMonitor) (op : string)
         (err : option string) (w w' : Aws.world) (r : usage_report),
    usage_table self <> None -> update_item_fails E = false ->
    track_api_call E self op true err w = (Ok r, w') ->
    exists info,
      get_current_usage E self w' = (Ok info, w') /\
      (info !! "error" = None ->
       info !! "usage_count" = Some (VInt (usage_count r)) /\
       info !! "last_operation" = Some (VStr op) /\
       info !! "last_updated" = Some (VStr (timestamp E)) /\
       info !! "period" = Some (VStr (period_key E))) /\
      (Aws.get_item_fails E = false ->
       (forall L, quota_limit self = Some L -> L <> 0 ->
                  is_ok (truediv (usage_count r) L) = true) ->
       info !! "error" = None).
Proof.
  intros E self op err w w' r Ht Hu Hrun.
  destruct (track_api_call_ledger E self op true err w) as (r0 & w0 & Hrun0 & H).
  rewrite Hrun in Hrun0. injection Hrun0 as <- <-.
  rewrite Hu in H. rewrite bool_decide_eq_true_2 in H
    by (destruct (usage_table self); [eauto | congruence]).
  cbn in H. destruct H as [Hitems Hcount].
  assert (Hitem : usage_items w' !! (api_name self, period_key E)
                  = Some {| item_usage_count := Some (usage_count r);
                            item_last_updated := Some (timestamp E);
                            item_last_operation := Some op |}).
  { rewrite Hitems, lookup_insert_eq, Hcount. unfold add_usage, count_in.
    destruct (usage_items w !! (api_name self, period_key E)); reflexivity. }
  cbv [get_current_usage try_except bind Aws.get_item raise get ret lift_outcome].
  destruct (usage_table self) as [t|]; [|congruence].
  destruct (Aws.get_item_fails E).
  { eexists; split; [reflexivity|]. split.
    - rewrite lookup_singleton_eq. discriminate.
    - discriminate. }
  rewrite Hitem. cbn [item_usage_count item_last_updated item_last_operation
                      default from_option id].
  destruct (quota_limit self) as [L|].
  2:{ eexists; split; [reflexivity|]. split; [|intros _ _; vm_compute; reflexivity].
      intros _. repeat split; vm_compute; reflexivity. }
  destruct (Z.eqb_spec L 0) as [|HL0].
  { eexists; split; [reflexivity|]. split; [|intros _ _; vm_compute; reflexivity].
    intros _. repeat split; vm_compute; reflexivity. }
  destruct (truediv (usage_count r) L) as [q|e] eqn:Hq.
  - eexists; split; [reflexivity|]. split; [|intros _ _; vm_compute; reflexivity].
    intros _. repeat split; vm_compute; reflexivity.
  - eexists; split; [reflexivity|]. split.
    + rewrite lookup_singleton_eq. discriminate.
    + intros _ HL. specialize (HL L eq_refl HL0). rewrite Hq in HL. discriminate.
Qed.

Lemma get_current_usage_reads_back_tracked_call_witness :
  exists info,
    get_current_usage calm (adobe (Some 100)) (snd january_call)
    = (Ok info, snd january_call) /\
    (info !! "error" = None ->
     info !! "usage_count"
     = Some (VInt (usage_count
                     (returned (fresh_report (adobe (Some 100)) true)
                        (fst january_call)))) /\
     info !! "last_operation" = Some (VStr "AutotagPDF") /\
     info !! "last_updated" = Some (VStr (timestamp calm)) /\
     info !! "period" = Some (VStr (period_key calm))) /\
    (Aws.get_item_fails calm = false ->
     (forall L, quota_limit (adobe (Some 100)) = Some L -> L <> 0 ->
                is_ok (truediv
                         (usage_count
                            (returned (fresh_report (adobe (Some 100)) true)
                               (fst january_call))) L) = true) ->
     info !! "error" = None).
Proof.
  apply (get_current_usage_reads_back_tracked_call calm (adobe (Some 100))
           "AutotagPDF" None (used 41) (snd january_call)
           (returned (fresh_report (adobe (Some 100)) true) (fst january_call))).
  - discriminate.
  - reflexivity.
  - vm_compute; reflexivity.
Defined.

(** The report reads 42 for the 42nd call. *)
Example january_call_reads_back :
  usage_count (returned (fresh_report (adobe (Some 100)) true) (fst january_call))
  = 42 /\
  returned ∅ (fst (get_current_usage calm (adobe (Some 100)) (snd january_call)))
    !! "usage_count" = Some (VInt 42) /\
  returned ∅ (fst (get_current_usage calm (adobe (Some 100)) (snd january_call)))
    !! "last_operation" = Some (VStr "AutotagPDF").
Proof. repeat split; vm_compute; reflexivity. Qed.
End LedgerTheorems.

Section MetricTheorems.
Import Float Aws CloudWatch Quota.

(** [put_metric], case by case: the datum is appended when the client
    exists and the call goes through; otherwise nothing changes and the
    answer is False. *)
Lemma put_metric_run E p name v u d w :
  exists w',
    put_metric E p name v u d w = (Ok (accepts E p name), w') /\
    usage_items w' = usage_items w /\ sns_messages w' = sns_messages w /\
    cloudwatch_data w'
    = (cloudwatch_data w
         ++ if accepts E p name then [(namespace p, datum E name v u d)]
            else [])%list.
Proof.
  unfold put_metric, accepts, try_except, bind, put_metric_data, raise,
    modify, ret.
  destruct (cloudwatch p) as [c|]; cbn.
  - destruct (put_metric_data_fails E name); cbn; eexists;
      (split; [reflexivity|]); repeat split; cbn; now rewrite ?app_nil_r.
  - eexists; split; [reflexivity|]. repeat split. now rewrite app_nil_r.
Qed.

(** X1: [put_api_call_metric] sends the call count and then the call
    status, each with the API name, the operation when it is not empty,
    and for the status datum Success or Failure; it never raises and
    touches nothing but CloudWatch.  Its answer is that of the second
    datum alone: it is True when the status datum was taken, also when
    the count datum was lost. *)
Theorem put_api_call_metric_answers_for_status_datum :
  forall (E : Aws.env) (p : CloudWatchMetricsPublisher) (api : string)
         (ok : bool) (op : option string) (w : Aws.world),
    exists w',
      put_api_call_metric E p api ok op w
      = (Ok (accepts E p "APICallStatus"), w') /\
      usage_items w' = usage_items w /\ sns_messages w' = sns_messages w /\
      cloudwatch_data w'
      = (cloudwatch_data w
           ++ (if accepts E p "APICallCount"
               then [(namespace p,
                      datum E "APICallCount" one "Count" (dimensions_of api op))]
               else [])
           ++ (if accepts E p "APICallStatus"
               then [(namespace p,
                      datum E "APICallStatus" one "Count"
                        (dimensions_of api op
                           ++ [("Status", if ok then "Success" else "Failure")]))]
               else []))%list.
Proof.
  intros E p api ok op w. unfold put_api_call_metric, bind.
  assert (Hd : match op with
               | Some o => if truthy_str o
                           then ([("APIName", api)] ++ [("Operation", o)])%list
                           else [("APIName", api)]
               | None => [("APIName", api)]
               end = dimensions_of api op).
  { unfold dimensions_of. destruct op as [o|]; [destruct (truthy_str o)|];
      reflexivity. }
  rewrite Hd.
  destruct (put_metric_run E p "APICallCount" one "Count" (dimensions_of api op) w)
    as (w1 & -> & I1 & S1 & C1).
  destruct (put_metric_run E p "APICallStatus" one "Count"
              (dimensions_of api op
                 ++ [("Status", if ok then "Success" else "Failure")])%list w1)
    as (w2 & -> & I2 & S2 & C2).
  exists w2. split; [reflexivity|]. repeat split; try congruence.
  rewrite C2, C1, <- app_assoc. reflexivity.
Qed.

(** CloudWatch loses the count datum and takes the status datum. *)
Example put_api_call_metric_count_lost :
  exists w',
    put_api_call_metric
      {| period_key := "2025-01"; timestamp := "2025-01-15T10:00:00+00:00";
         put_metric_data_fails := fun name => String.eqb name "APICallCount";
         update_item_fails := false; Aws.get_item_fails := false;
         publish_fails := false |}
      (CloudWatch.init true) "AdobeAPI" true (Some "AutotagPDF") (used 0)
    = (Ok true, w') /\
    map (fun d => MetricName (snd d)) (cloudwatch_data w') = ["APICallStatus"].
Proof. eexists. vm_compute. split; reflexivity. Qed.
End MetricTheorems.

Section AlertFacts.
Import Float Aws CloudWatch Quota.

Variable E : Aws.env.
Variable self : QuotaMonitor.

(** One call, as far as SNS and the alert flags go. *)
Lemma track_api_call_alert_sent op ok err w :
  exists r w' b1 w1 b2 w2,
    track_api_call E self op ok err w = (Ok r, w') /\
    put_api_call_metric E (metrics_publisher self) (api_name self) ok (Some op) w
    = (Ok b1, w1) /\
    error_metric_step E self op err w1 = (Ok b2, w2) /\
    (alert_sent r = true ->
     exists m, sns_messages w' = (sns_messages w ++ [m])%list) /\
    (alert_sent r = false -> sns_messages w' = sns_messages w) /\
    (limit_in_force self = None ->
     alert_sent r = false /\ quota_exceeded r = false /\
     usage_percentage r = zero /\ cloudwatch_data w' = cloudwatch_data w2).
Proof.
  destruct (track_api_call_run E self op ok err w)
    as (b1 & w1 & b2 & w2 & H1 & H2 & (_ & S1 & _) & (_ & S2 & _) & Hrun).
  destruct (ok && bool_decide (is_Some (usage_table self))) eqn:Hc.
  2:{ exists (fresh_report self ok), w2, b1, w1, b2, w2.
      repeat (split; [assumption|]). cbn.
      split; [discriminate|]. split; [congruence|]. intros _. repeat split. }
  destruct Hrun as (res & w' & r' & Hbody & Hcall).
  exists r', w', b1, w1, b2, w2. repeat (split; [assumption|]).
  destruct (track_usage_run E self op ok w2)
    as (n & w3 & Hinc & res' & w'' & r'' & Hbody' & Hn & _ & Hcases).
  rewrite Hbody in Hbody'. inversion Hbody'; subst res' w'' r''. clear Hbody'.
  destruct (increment_usage_counter_returns E self op w2)
    as (n' & w3' & Hinc' & S3 & C3 & _). rewrite Hinc in Hinc'.
  inversion Hinc'; subst n' w3'. clear Hinc'.
  destruct (limit_in_force self) as [L|] eqn:Hforce.
  2:{ destruct Hcases as [-> ->]. cbn.
      split; [discriminate|]. split; [congruence|]. intros _. repeat split.
      assumption. }
  destruct (truediv n L) as [pct|e] eqn:Hdiv.
  2:{ destruct Hcases as [-> ->]. cbn.
      split; [discriminate|]. split; [congruence|]. discriminate. }
  destruct Hcases as (Hpct & w4 & gauge & Hgauge & Hrest).
  destruct (put_quota_usage_metric_frames E (metrics_publisher self)
              (api_name self) n L w3) as (g' & w4' & Hg' & (_ & S4 & _) & _).
  rewrite Hgauge in Hg'. inversion Hg'; subst g' w4'. clear Hg'.
  destruct gauge as [bg|e].
  2:{ destruct Hrest as (-> & Hs & _). rewrite Hs.
      split; [discriminate|]. split; [congruence|]. discriminate. }
  destruct Hrest as (_ & Hrung).
  assert (Hsend : forall level text,
            _send_alert E self level text n pct w4 = (Ok (alert_sent r'), w') ->
            (alert_sent r' = true ->
             exists m, sns_messages w' = (sns_messages w ++ [m])%list) /\
            (alert_sent r' = false -> sns_messages w' = sns_messages w)).
  { intros level text Hs.
    destruct (send_alert_returns E self level text n pct w4)
      as (sent & w5 & Hs' & _ & _ & Hno & Hyes & _).
    rewrite Hs in Hs'. inversion Hs'; subst sent w5. clear Hs'. split.
    - intros Hsent. destruct (Hyes Hsent) as (arn & Hmsg).
      eexists. rewrite Hmsg, S4, S3, S2, S1. reflexivity.
    - intros Hsent. rewrite (Hno Hsent). congruence. }
  destruct (rung_of self pct).
  4:{ destruct Hrung as [-> Hs]. rewrite Hs.
      split; [discriminate|]. split; [congruence|]. discriminate. }
  all: destruct (Hsend _ _ Hrung) as [Hy Hn']; split; [exact Hy|];
    split; [exact Hn' | discriminate].
Qed.
End AlertFacts.

Section AlertTheorems.
Import Float Aws CloudWatch Quota.

(** X5: the alert_sent flag of the report tells the truth: it is True
    exactly when the call added a message to the SNS topic, and then it
    added exactly one; when SNS is not configured or refuses the publish
    the flag stays False and no message is added. *)
Theorem alert_sent_iff_message_published :
  forall (E : Aws.env) (self : QuotaMonitor) (op : string) (ok : bool)
         (err : option string) (w : Aws.world),
    exists r w',
      track_api_call E self op ok err w = (Ok r, w') /\
      (alert_sent r = true <->
       exists m, sns_messages w' = (sns_messages w ++ [m])%list) /\
      (alert_sent r = false <-> sns_messages w' = sns_messages w).
Proof.
  intros E self op ok err w.
  destruct (track_api_call_alert_sent E self op ok err w)
    as (r & w' & _ & _ & _ & _ & Hrun & _ & _ & Hy & Hn & _).
  exists r, w'. split; [assumption|].
  assert (Hno : forall m : sns_message,
             sns_messages w <> (sns_messages w ++ [m])%list).
  { intros m H. apply (f_equal length) in H. rewrite length_app in H.
    cbn in H. lia. }
  split; split.
  - exact Hy.
  - intros (m & Hm). destruct (alert_sent r) eqn:Hs; [reflexivity|].
    rewrite (Hn eq_refl) in Hm. exfalso. exact (Hno m Hm).
  - exact Hn.
  - intros Hsame. destruct (alert_sent r) eqn:Hs; [|reflexivity].
    destruct (Hy eq_refl) as (m & Hm). rewrite Hsame in Hm.
    exfalso. exact (Hno m Hm).
Qed.

(** X6: a monitor without a positive limit ([None], 0 or a negative
    number) counts and stays silent: a call recorded as successful is
    added to the ledger, and the report carries the new count, but no
    alert is sent, the report has alert_sent False, quota_exceeded False
    and usage_percentage 0.0, and CloudWatch gets the call metrics
    only, no usage gauge. *)
Theorem track_api_call_without_limit_counts_silently :
  forall (E : Aws.env) (self : QuotaMonitor) (op : string)
         (err : option string) (w : Aws.world),
    (forall L, quota_limit self = Some L -> L <= 0) ->
    exists r w' b1 w1 b2 w2,
      track_api_call E self op true err w = (Ok r, w') /\
      sns_messages w' = sns_messages w /\
      alert_sent r = false /\ quota_exceeded r = false /\
      usage_percentage r = zero /\
      put_api_call_metric E (metrics_publisher self) (api_name self)
        true (Some op) w = (Ok b1, w1) /\
      error_metric_step E self op err w1 = (Ok b2, w2) /\
      cloudwatch_data w' = cloudwatch_data w2 /\
      (usage_table self <> None -> update_item_fails E = false ->
       usage_count r = count_in self (period_key E) w + 1 /\
       count_in self (period_key E) w' = count_in self (period_key E) w + 1).
Proof.
  intros E self op err w Hlimit.
  assert (Hforce : limit_in_force self = None).
  { unfold limit_in_force. destruct (quota_limit self) as [L|]; [|reflexivity].
    specialize (Hlimit L eq_refl).
    destruct (Z.eqb_spec L 0); [reflexivity|].
    destruct (Z.gtb_spec L 0); [lia | reflexivity]. }
  destruct (track_api_call_alert_sent E self op true err w)
    as (r & w' & b1 & w1 & b2 & w2 & Hrun & H1 & H2 & _ & Hn & Hq).
  destruct (Hq Hforce) as (Ha & Hx & Hp & Hc).
  exists r, w', b1, w1, b2, w2. split; [assumption|].
  split; [exact (Hn Ha)|]. repeat (split; [assumption|]).
  intros Ht Hu.
  destruct (track_api_call_ledger E self op true err w) as (r0 & w0 & Hrun0 & H).
  rewrite Hrun in Hrun0. injection Hrun0 as <- <-.
  rewrite Hu in H. rewrite bool_decide_eq_true_2 in H
    by (destruct (usage_table self); [eauto | congruence]).
  cbn in H. destruct H as [Hitems Hcount]. split; [assumption|].
  unfold count_in at 1. rewrite Hitems, lookup_insert_eq.
  unfold add_usage, count_in; cbn.
  destruct (usage_items w !! (api_name self, period_key E)); reflexivity.
Qed.

Lemma track_api_call_without_limit_counts_silently_witness :
  exists r w',
    track_api_call calm (adobe (Some (-1))) "AutotagPDF" true None (used 500)
    = (Ok r, w') /\
    usage_count r = 501 /\ alert_sent r = false /\ sns_messages w' = [].
Proof.
  edestruct (track_api_call_without_limit_counts_silently calm
               (adobe (Some (-1))) "AutotagPDF" None (used 500))
    as (r & w' & _ & _ & _ & _ & Hrun & Hs & Ha & _ & _ & _ & _ & _ & Hc).
  - intros L [= <-]. lia.
  - exists r, w'. split; [exact Hrun|].
    destruct Hc as [Hc _]; [discriminate | reflexivity |].
    split; [exact Hc|]. split; [exact Ha | exact Hs].
Defined.
End AlertTheorems.

Section PageFacts.
Import Float Analyzer.

Lemma image_names_raises xs :
  is_ok (image_names xs)
  = negb (existsb (fun x => negb (bool_decide (is_Some (snd x)))) xs).
Proof.
  induction xs as [|[obj [t|]] xs IH]; cbn; [reflexivity| |reflexivity].
  rewrite <- IH. destruct (image_names xs); reflexivity.
Qed.

Lemma image_names_length xs images :
  image_names xs = Ok images -> (length images <= length xs)%nat.
Proof.
  revert images. induction xs as [|[obj [t|]] xs IH]; cbn; intros images.
  - intros [= <-]. cbn. lia.
  - destruct (image_names xs) as [rest|]; cbn; [|discriminate].
    specialize (IH rest eq_refl).
    destruct (t =? "/Image")%string; intros [= <-]; cbn; lia.
  - discriminate.
Qed.

Lemma count_line_step acc line : acc <= count_line acc line <= acc + 2.
Proof.
  unfold count_line. destruct (strip line) as [|first rest]; [lia|].
  destruct ((Z.of_nat (String.length (String first rest)) <? 100)
            && isupper first); lia.
Qed.

Lemma fold_count_line lines : forall acc,
  acc <= fold_left count_line lines acc <= acc + 2 * Z.of_nat (length lines).
Proof.
  induction lines as [|l lines IH]; intros acc; cbn [fold_left length].
  - lia.
  - specialize (IH (count_line acc l)).
    pose proof (count_line_step acc l). lia.
Qed.

Lemma append_nil_r s : s +:+ EmptyString = s.
Proof.
  induction s as [|c s IH]; [reflexivity|].
  change (String c s +:+ EmptyString) with (String c (s +:+ EmptyString)).
  now rewrite IH.
Qed.

Lemma append_assoc s t u : (s +:+ t) +:+ u = s +:+ (t +:+ u).
Proof.
  induction s as [|c s IH]; [reflexivity|].
  change ((String c s +:+ t) +:+ u) with (String c ((s +:+ t) +:+ u)).
  now rewrite IH.
Qed.

Lemma basename_from_no_slash s : forall acc,
  has_slash s = false -> basename_from acc s = acc +:+ s.
Proof.
  induction s as [|c s IH]; intros acc; cbn.
  - intros _. now rewrite append_nil_r.
  - destruct (code c =? 47)%N; [discriminate|]. cbn. intros H.
    rewrite (IH _ H), append_assoc. reflexivity.
Qed.

Lemma basename_from_path dir name : forall acc,
  basename_from acc (dir +:+ "/" +:+ name) = basename_from EmptyString name.
Proof.
  induction dir as [|c dir IH]; intros acc.
  - reflexivity.
  - change (String c dir +:+ "/" +:+ name)
      with (String c (dir +:+ "/" +:+ name)).
    cbn [basename_from]. destruct (code c =? 47)%N; apply IH.
Qed.

Lemma has_slash_app s t :
  has_slash (s +:+ t) = has_slash s || has_slash t.
Proof.
  induction s as [|c s IH]; [reflexivity|].
  change (String c s +:+ t) with (String c (s +:+ t)). cbn.
  rewrite IH. apply orb_assoc.
Qed.

Lemma basename_from_has_no_slash s : forall acc,
  has_slash acc = false -> has_slash (basename_from acc s) = false.
Proof.
  induction s as [|c s IH]; intros acc Hacc; cbn; [assumption|].
  destruct (code c =? 47)%N eqn:Hc; apply IH; [reflexivity|].
  rewrite has_slash_app, Hacc. cbn. rewrite Hc. reflexivity.
Qed.
End PageFacts.

Section AnalyzerExtras.
Import Float Analyzer.

(** X7: the estimate of a page is the fallback 10 exactly when counting
    raises: the text cannot be extracted, the page has no /Resources
    (however much text it has), the XObject dictionary cannot be
    resolved, or an XObject has no /Subtype.  In every other case it is
    the count, which lies between 5 and two per line, two more per line
    for tables, and two per XObject. *)
Theorem estimate_elements_from_page_fallback :
  forall (page : pdf_page),
    if counting_raises page
    then estimate_elements_from_page page = 10
    else count_elements page = Ok (estimate_elements_from_page page) /\
         5 <= estimate_elements_from_page page
           <= Z.max 5 (4 * Z.of_nat (length (lines_of page))
                       + 2 * Z.of_nat (length (xobjects_of page))).
Proof.
  intros page.
  unfold counting_raises, estimate_elements_from_page, count_elements,
    lines_of, xobjects_of, and_then.
  destruct (extract_text page) as [text|e]; cbn [is_ok negb orb]; [|reflexivity].
  destruct (Resources page) as [res|]; [|reflexivity].
  set (lines := split_lines text).
  pose proof (fold_count_line lines 0) as Hfold.
  assert (Hfilter : (length (filter is_table_line lines) <= length lines)%nat)
    by apply length_filter.
  destruct (XObject res) as [[xs|e]|]; [| reflexivity |].
  - pose proof (image_names_raises xs) as Hraise.
    destruct (existsb _ xs); cbn in Hraise.
    + destruct (image_names xs); [discriminate | reflexivity].
    + destruct (image_names xs) as [images|] eqn:Him; [|discriminate].
      pose proof (image_names_length xs images Him).
      split; [reflexivity|]. lia.
  - split; [reflexivity|]. cbn [length]. lia.
Qed.

(** A page full of text and without /Resources is estimated at 10. *)
Example estimate_without_resources :
  estimate_elements_from_page
    {| extract_text := Ok seven_lines; Resources := None |} = 10 /\
  estimate_elements_from_page (plain_page seven_lines) = 7.
Proof. split; vm_compute; reflexivity. Qed.

(** X8: [analyze_pdf] looks at the first ten pages only: two documents
    of the same size, metadata and number of pages that agree on their
    first ten pages get the same analysis, whatever the pages after the
    tenth hold. *)
Theorem analyze_pdf_reads_first_ten_pages_only :
  forall (now : string) (d1 d2 : pdf_document) (key : string),
    size_bytes d1 = size_bytes d2 -> metadata d1 = metadata d2 ->
    length (pages d1) = length (pages d2) ->
    firstn 10 (pages d1) = firstn 10 (pages d2) ->
    analyze_pdf now (Ok d1) key = analyze_pdf now (Ok d2) key.
Proof.
  intros now d1 d2 key Hsize Hmeta Hlen Hfirst.
  unfold analyze_pdf, and_then.
  rewrite !sample_loop_first_pages, Hsize, Hmeta, Hlen, Hfirst. reflexivity.
Qed.

Lemma analyze_pdf_reads_first_ten_pages_only_witness :
  analyze_pdf "2025-01-15T10:00:00+00:00"
    (Ok {| size_bytes := 2048;
           pages := (replicate 10 (plain_page seven_lines) ++ [heavy_page])%list;
           metadata := None |}) "pdf-upload/a.pdf"
  = analyze_pdf "2025-01-15T10:00:00+00:00"
      (Ok {| size_bytes := 2048;
             pages := (replicate 10 (plain_page seven_lines) ++ [corrupt_page])%list;
             metadata := None |}) "pdf-upload/a.pdf".
Proof.
  apply (analyze_pdf_reads_first_ten_pages_only "2025-01-15T10:00:00+00:00"
           {| size_bytes := 2048;
              pages := (replicate 10 (plain_page seven_lines) ++ [heavy_page])%list;
              metadata := None |}
           {| size_bytes := 2048;
              pages := (replicate 10 (plain_page seven_lines) ++ [corrupt_page])%list;
              metadata := None |}); reflexivity.
Defined.

(** X9: documents that cannot be analysed: when the object cannot be
    downloaded or opened the exception is passed on as it is, and a
    document without pages raises ZeroDivisionError (the mean over zero
    sampled pages); no analysis is returned in either case. *)
Theorem analyze_pdf_raises_on_unreadable_or_empty :
  forall (now key : string),
    (forall e, analyze_pdf now (Raise e) key = Raise e) /\
    (forall doc, pages doc = [] ->
       exists e, analyze_pdf now (Ok doc) key = Raise e /\
                 (is_ok (truediv (size_bytes doc) (1024 * 1024)) = true ->
                  e = ZeroDivisionError)).
Proof.
  intros now key. split; [reflexivity|].
  intros doc Hpages. unfold analyze_pdf, and_then. rewrite Hpages.
  destruct (truediv (size_bytes doc) (1024 * 1024)) as [mb|e].
  - exists ZeroDivisionError. split; [reflexivity | reflexivity].
  - exists e. split; [reflexivity | discriminate].
Qed.

(** X10: the file name of an analysis is the part of the key after its
    last slash: it holds no slash, a key without slash is its own file
    name, and [dir/name] has the file name [name] for every [dir].  Keys
    in different folders with the same last part get the same file
    name. *)
Theorem analyze_pdf_file_name_is_last_part :
  forall (now : string) (doc : pdf_document) (key : string)
         (r : analysis_result),
    analyze_pdf now (Ok doc) key = Ok r ->
    file_key r = key /\
    has_slash (file_name r) = false /\
    (has_slash key = false -> file_name r = key) /\
    (forall dir name, key = dir +:+ "/" +:+ name -> has_slash name = false ->
                      file_name r = name).
Proof.
  intros now doc key r. unfold analyze_pdf, and_then.
  destruct (truediv (size_bytes doc) _); [|discriminate].
  destruct (sample_loop _ _ _); [|discriminate].
  destruct (truediv _ _); [|discriminate].
  destruct (mul_int _ _); [|discriminate].
  destruct (to_int _); [|discriminate].
  destruct (truediv _ _); [|discriminate].
  destruct (mul_int _ _); [|discriminate].
  intros [= <-]. cbn [file_key file_name]. unfold basename.
  split; [reflexivity|]. split; [now apply basename_from_has_no_slash|].
  split.
  - intros H. now rewrite basename_from_no_slash.
  - intros dir name -> H.
    rewrite basename_from_path. now rewrite basename_from_no_slash.
Qed.

Lemma analyze_pdf_file_name_is_last_part_witness :
  file_key (returned (Intake.small_analysis EmptyString) deep_upload)
  = "team-a/2025/report.pdf" /\
  has_slash (file_name (returned (Intake.small_analysis EmptyString) deep_upload))
  = false /\
  (has_slash "team-a/2025/report.pdf" = false ->
   file_name (returned (Intake.small_analysis EmptyString) deep_upload)
   = "team-a/2025/report.pdf") /\
  (forall dir name,
      "team-a/2025/report.pdf" = dir +:+ "/" +:+ name ->
      has_slash name = false ->
      file_name (returned (Intake.small_analysis EmptyString) deep_upload) = name).
Proof.
  apply (analyze_pdf_file_name_is_last_part "2025-01-15T10:00:00+00:00"
           (one_page_doc (plain_page seven_lines)) "team-a/2025/report.pdf"
           (returned (Intake.small_analysis EmptyString) deep_upload)).
  vm_compute; reflexivity.
Defined.

(** The analysis of [team-a/2025/report.pdf] is named [report.pdf]. *)
Example deep_upload_file_name :
  file_name (returned (Intake.small_analysis EmptyString) deep_upload)
  = "report.pdf".
Proof. vm_compute. reflexivity. Qed.
End AnalyzerExtras.

Section IntakeFacts.
Import Float Analyzer Intake.



End IntakeFacts.

Section IntakeTheorems.
Import Float Analyzer Intake.




End IntakeTheorems.

Section ApprovalRunsFacts.
Import Approval.

Ltac nothing_copied :=
  eexists _, _; split; [reflexivity|]; left; cbn; repeat split; discriminate.

(** The two kinds of run of the approval handler: nothing is copied and
    the answer is an error, or the request approves a job that is not in
    processing and names its file, and the file is copied under [pdf/]. *)
Lemma lambda_handler_copies E ev w :
  exists r w',
    lambda_handler E ev w = (Ok r, w') /\
    (bucket w' = bucket w /\ object_created w' = object_created w /\
     statusCode r <> 200
     \/ exists id job k f content,
          approves ev id /\ get_item_fails E = false /\
          pending_jobs w !! id = Some job /\
          status job <> Some "processing" /\
          file_key job = Some k /\ file_name job = Some f /\
          bucket w !! k = Some content /\
          bucket w' = <["pdf/" +:+ f := content]> (bucket w) /\
          object_created w' = (object_created w ++ ["pdf/" +:+ f])%list /\
          match estimated_transactions job with
          | Some est =>
              r = {| statusCode := 200;
                     body :=
                       {| success := true; error := None;
                          body_job_id := Some id;
                          message := Some "Remediation started - file copied to processing folder";
                          source_key := Some k;
                          destination_key := Some ("pdf/" +:+ f);
                          body_estimated_transactions := Some est |} |} /\
              pending_jobs w'
              = <[id := set_processing (now E) job]> (pending_jobs w)
          | None =>
              statusCode r = 500 /\
              (revert_fails E = false ->
               r = failure 500 ("Failed to start processing: "
                                  +:+ str_exn (KeyError "estimated_transactions")) /\
               pending_jobs w'
               = <[id := set_pending_approval (set_processing (now E) job)]>
                   (pending_jobs w))
          end).
Proof.
  cbv [lambda_handler start_remediation after_lookup try_except bind
       lift_outcome ret get_item raise get update_item copy_object modify item].
  destruct ev as [[b|e]|b|b]; try nothing_copied.
  all: destruct (negb (truthy (default JNull (b !! "job_id")))) eqn:Hj;
    try nothing_copied.
  all: destruct (negb (truthy (default (JBool false) (b !! "user_approved"))))
    eqn:Hu; try nothing_copied.
  all: destruct (default JNull (b !! "job_id")) as [| | |jid] eqn:Hid;
    try nothing_copied.
  all: destruct (get_item_fails E) eqn:Hget; try nothing_copied.
  all: cbn [fst snd]; destruct (pending_jobs w !! jid) as [job|] eqn:Hjob;
    try nothing_copied.
  all: destruct (bool_decide (status job = Some "processing")) eqn:Hst;
    try nothing_copied.
  all: apply bool_decide_eq_false in Hst.
  all: destruct (flip_fails E); try nothing_copied.
  all: destruct (file_key job) as [k|] eqn:Hk; try nothing_copied.
  all: destruct (file_name job) as [f|] eqn:Hf; try nothing_copied.
  all: destruct (copy_object_fails E);
    [destruct (revert_fails E); nothing_copied|].
  all: cbn [bucket]; destruct (bucket w !! k) as [content|] eqn:Hc;
    [|destruct (revert_fails E); nothing_copied].
  all: assert (Hjid : b !! "job_id" = Some (JStr jid))
    by (destruct (b !! "job_id"); cbn in Hid; congruence).
  all: apply negb_false_iff in Hj, Hu.
  all: match goal with
       | |- context [approves ?e _] =>
           assert (Ha : approves e jid)
             by (exists b; repeat split; assumption || reflexivity)
       end.
  all: destruct (estimated_transactions job) as [est|] eqn:Hest.
  all: try (eexists _, _; split; [reflexivity|]; right;
            exists jid, job, k, f, content; rewrite ?Hest;
            repeat (split; [assumption || reflexivity|]);
            cbn; rewrite ?Hjob; split; reflexivity).
  all: destruct (revert_fails E) eqn:Hrev;
    eexists _, _; (split; [reflexivity|]); right;
    exists jid, job, k, f, content; rewrite ?Hest;
    repeat (split; [assumption || reflexivity|]);
    try congruence;
    cbn; rewrite ?Hjob; cbn; rewrite ?lookup_insert_eq, ?insert_insert_eq;
    try split; reflexivity.
Qed.
End ApprovalRunsFacts.

Section StackFacts.
Import Stack.

Lemma prefix_pdf_append f : String.prefix "pdf/" ("pdf/" +:+ f) = true.
Proof. destruct f; vm_compute; reflexivity. Qed.




End StackFacts.

Section ApprovalExtras.
Import Approval Stack.

(** X15: a request is checked before any service is called: whatever the
    services would do, a body that cannot be parsed is answered 500, a
    missing, null, empty or zero job_id is answered 400 "job_id is
    required" (whatever user_approved says), and a job_id with a falsy
    user_approved 400 "user_approved must be true"; nothing is read or
    written. *)
Theorem start_remediation_validates_before_calls :
  forall (E : env) (ev : event) (w : world),
    match body_of ev with
    | Raise e => lambda_handler E ev w = (Ok (failure 500 (str_exn e)), w)
    | Ok b =>
        (truthy (default JNull (b !! "job_id")) = false ->
         lambda_handler E ev w = (Ok (failure 400 "job_id is required"), w)) /\
        (truthy (default JNull (b !! "job_id")) = true ->
         truthy (default (JBool false) (b !! "user_approved")) = false ->
         lambda_handler E ev w
         = (Ok (failure 400 "user_approved must be true"), w))
    end.
Proof.
  intros E ev w.
  unfold lambda_handler, start_remediation, try_except, bind, lift_outcome, ret.
  destruct ev as [[b|e]|b|b]; cbn [body_of]; try reflexivity.
  all: split; [intros -> | intros -> ->]; reflexivity.
Qed.

(** X16: a job record without estimated_transactions: the flip and the
    copy go through, so the file lands under [pdf/] and its creation is
    notified, and only then the missing attribute raises inside the inner
    [try]; the answer is 500 and the status is put back to
    pending_approval although the copy stays. *)
Theorem approve_without_estimate_copies_then_reverts :
  forall (E : env) (ev : event) (id : string) (w : world) (job : job)
         (k f content : string),
    approves ev id -> get_item_fails E = false ->
    flip_fails E = false -> copy_object_fails E = false ->
    revert_fails E = false ->
    pending_jobs w !! id = Some job -> status job <> Some "processing" ->
    file_key job = Some k -> file_name job = Some f ->
    estimated_transactions job = None ->
    bucket w !! k = Some content ->
    exists w',
      lambda_handler E ev w
      = (Ok (failure 500 ("Failed to start processing: "
                            +:+ str_exn (KeyError "estimated_transactions"))), w') /\
      status_of w' id = Some "pending_approval" /\
      bucket w' !! ("pdf/" +:+ f) = Some content /\
      object_created w' = (object_created w ++ ["pdf/" +:+ f])%list.
Proof.
  intros E ev id w job k f content Ha Hget Hflip Hcopy Hrev Hjob Hst Hk Hf Hest Hc.
  rewrite (lambda_handler_approval E ev id w Ha Hget).
  cbv [after_lookup try_except bind ret raise get update_item copy_object
       modify item].
  rewrite Hjob, (bool_decide_eq_false_2 _ Hst), Hflip, Hk, Hf, Hcopy, Hrev.
  cbn [bucket]. rewrite Hc, Hest.
  eexists; split; [reflexivity|]. cbn. repeat split.
  - unfold status_of; cbn. rewrite lookup_insert_eq. reflexivity.
  - apply lookup_insert_eq.
Qed.

Lemma approve_without_estimate_copies_then_reverts_witness :
  exists w',
    lambda_handler all_up (approve_request "old.pdf_1") old_upload
    = (Ok (failure 500 ("Failed to start processing: "
                          +:+ str_exn (KeyError "estimated_transactions"))), w') /\
    status_of w' "old.pdf_1" = Some "pending_approval" /\
    bucket w' !! ("pdf/" +:+ "old.pdf") = Some "%PDF-1.4" /\
    object_created w' = (object_created old_upload ++ ["pdf/" +:+ "old.pdf"])%list.
Proof.
  apply (approve_without_estimate_copies_then_reverts all_up
           (approve_request "old.pdf_1") "old.pdf_1" old_upload
           job_without_estimate "pdf-upload/old.pdf" "old.pdf" "%PDF-1.4");
    try reflexivity.
  - apply approves_request. reflexivity.
  - discriminate.
Defined.



(** X18: every run of the approval handler leaves all objects where they
    are: no key is deleted, a key outside [pdf/] keeps its content (the
    uploads are never overwritten), and at most the record of one job
    changes. *)
Theorem start_remediation_keeps_uploads :
  forall (E : env) (ev : event) (w w' : world) (r : response),
    lambda_handler E ev w = (Ok r, w') ->
    (forall k, is_Some (bucket w !! k) -> is_Some (bucket w' !! k)) /\
    (forall k, String.prefix "pdf/" k = false ->
               bucket w' !! k = bucket w !! k) /\
    exists id, forall other,
        other <> id -> pending_jobs w' !! other = pending_jobs w !! other.
Proof.
  intros E ev w w' r Hrun.
  destruct (lambda_handler_copies E ev w) as (r0 & w0 & Hrun0 & Hcases).
  rewrite Hrun in Hrun0. injection Hrun0 as <- <-.
  assert (Hjobs : exists id, forall other,
             other <> id -> pending_jobs w' !! other = pending_jobs w !! other).
  { destruct (lambda_handler_written E ev w) as (r1 & w1 & Hrun1 & Hw).
    rewrite Hrun in Hrun1. injection Hrun1 as <- <-.
    destruct Hw as [-> _ | id job _ _ -> _ | id job _ _ -> _].
    - exists EmptyString. reflexivity.
    - exists id. intros other Hne. apply lookup_insert_ne. congruence.
    - exists id. intros other Hne. apply lookup_insert_ne. congruence. }
  destruct Hcases as [(Hb & _) | (id & job & k & f & content & _ & _ & _ & _ &
    _ & _ & _ & Hb & _)]; rewrite Hb.
  - repeat split; auto.
  - split; [|split; [|exact Hjobs]].
    + intros k0 Hk0. destruct (decide ("pdf/" +:+ f = k0)) as [->|Hne].
      * rewrite lookup_insert_eq; eauto.
      * rewrite lookup_insert_ne by assumption. assumption.
    + intros k0 Hk0. apply lookup_insert_ne. intros <-.
      rewrite prefix_pdf_append in Hk0. discriminate.
Qed.

Lemma start_remediation_keeps_uploads_witness :
  (forall k, is_Some (bucket (one_job "pending_approval") !! k) ->
             is_Some (bucket (snd approved_run) !! k)) /\
  (forall k, String.prefix "pdf/" k = false ->
             bucket (snd approved_run) !! k
             = bucket (one_job "pending_approval") !! k) /\
  exists id, forall other,
      other <> id ->
      pending_jobs (snd approved_run) !! other
      = pending_jobs (one_job "pending_approval") !! other.
Proof.
  apply (start_remediation_keeps_uploads all_up
           (approve_request "report.pdf_1733752800")
           (one_job "pending_approval") (snd approved_run)
           (returned (failure 0 EmptyString) (fst approved_run))).
  vm_compute; reflexivity.
Defined.



(** A job whose file name ends in upper case [.PDF] is approved, its
    record goes to processing, and the copy does not pass the filter:
    nothing starts the pipeline. *)
Example approve_upper_case_suffix :
  exists r w',
    lambda_handler all_up (approve_request "SCAN.PDF_1")
      {| pending_jobs :=
           {[ "SCAN.PDF_1" :=
                {| status := Some "pending_approval";
                   file_key := Some "pdf-upload/SCAN.PDF";
                   file_name := Some "SCAN.PDF";
                   estimated_transactions := Some 40; approved_at := None |} ]};
         bucket := {[ "pdf-upload/SCAN.PDF" := "%PDF-1.4" ]};
         object_created := [] |} = (Ok r, w') /\
    statusCode r = 200 /\
    status_of w' "SCAN.PDF_1" = Some "processing" /\
    object_created w' = ["pdf/SCAN.PDF"] /\
    filter (fun key => invokes_split_pdf key) (object_created w') = [].
Proof. eexists _, _. vm_compute. repeat split. Qed.
End ApprovalExtras.

Section IntakeHandler.
Import Float Analyzer Intake.


(** An upload whose PDF has no page: 500 with the text of the division
    error, and nothing stored. *)
Example analyzer_lambda_handler_empty_document :
  lambda_handler (fun key => key)
    (upload (Ok {| size_bytes := 2048; pages := []; metadata := None |}) false)
    (uploaded "pdf-upload/empty.pdf") ∅
  = (Ok {| statusCode := 500; body := Failed "division by zero" |}, ∅).
Proof. vm_compute. reflexivity. Qed.
End IntakeHandler.

Section IntakeToApproval.
Import Analyzer.


End IntakeToApproval.

Section ChunkFacts.
Import Workflow.










End ChunkFacts.

Section ChunkTheorems.
Import Workflow.




End ChunkTheorems.

Section SequentialRun.
Import Workflow.

Lemma interleaving_idle hs h :
  interleaving hs h -> interleaving ([] :: hs) h.
Proof.
  induction 1 as [hs Hall | before e h0 after rest _ IH].
  - apply interleaving_done. constructor; [reflexivity | assumption].
  - apply (interleaving_step ([] :: before)). exact IH.
Qed.

Lemma interleaving_concat hs : interleaving hs (concat hs).
Proof.
  induction hs as [|h hs IH]; cbn [concat].
  - apply interleaving_done. constructor.
  - induction h as [|e h IHh]; cbn [app].
    + apply interleaving_idle. exact IH.
    + apply (interleaving_step [] e h hs). exact IHh.
Qed.

Lemma runs_iterations_one_by_one items n : forall i,
  runs_iterations items "Map" [ecs_task_1; ecs_task_2] i n
    (map iteration_history (seq i n)).
Proof.
  induction n as [|n IH]; intros i; cbn [seq map].
  - constructor.
  - apply (runs_iterations_cons items "Map" [ecs_task_1; ecs_task_2] i n
             [StateEntered "ECS RunTask" (Some i);
              StateExited "ECS RunTask" (Some i);
              StateEntered "ECS RunTask (1)" (Some i);
              StateExited "ECS RunTask (1)" (Some i)]).
    + apply (runs_chain_cons items (Some i) ecs_task_1 [ecs_task_2]
               [StateEntered "ECS RunTask" (Some i);
                StateExited "ECS RunTask" (Some i)]
               [StateEntered "ECS RunTask (1)" (Some i);
                StateExited "ECS RunTask (1)" (Some i)]).
      * apply runs_task.
      * apply (runs_chain_cons items (Some i) ecs_task_2 []
                 [StateEntered "ECS RunTask (1)" (Some i);
                  StateExited "ECS RunTask (1)" (Some i)] []).
        -- apply runs_task.
        -- apply runs_chain_nil.
    + apply IH.
Qed.

Lemma peak_one_by_one n : forall i,
  (peak_in_flight 0 (concat (map iteration_history (seq i n))) <= 1)%nat.
Proof.
  induction n as [|n IH]; intros i; cbn [seq map concat].
  - cbn. lia.
  - cbn. specialize (IH (S i)). lia.
Qed.

(** X22: the definition can be carried out on any number of chunks, also
    on more than the 100 the Map runs at once: taking the chunks one
    after the other and the verification branch last is an execution,
    for every number of chunks. *)
Theorem workflow_runs_on_any_number_of_chunks :
  forall (items : nat), execution items (one_by_one items).
Proof.
  intros items. unfold execution, one_by_one.
  apply (runs_parallel items None "ParallelState"
           [main_chain; [a11y_precheck_lambda_task]]
           [main_branch_history (concat (map iteration_history (seq 0 items)));
            verify_branch_history]).
  - apply runs_branches_cons; [|apply runs_branches_cons; [|apply runs_branches_nil]].
    + unfold main_branch_history.
      apply (runs_chain_cons items None map_state _
               (StateEntered "Map" None
                  :: concat (map iteration_history (seq 0 items)) ++ [map_done])
               [merge_begins; merge_done; add_title_begins; add_title_done;
                verify_final_begins; verify_final_done]).
      * apply (runs_map items None "Map" 100 [ecs_task_1; ecs_task_2]
                 (map iteration_history (seq 0 items))).
        -- apply runs_iterations_one_by_one.
        -- apply interleaving_concat.
        -- pose proof (peak_one_by_one items 0). lia.
      * apply (runs_chain_cons items None java_lambda_task _
                 [merge_begins; merge_done]
                 [add_title_begins; add_title_done;
                  verify_final_begins; verify_final_done]);
          [apply runs_task|].
        apply (runs_chain_cons items None add_title_lambda_task _
                 [add_title_begins; add_title_done]
                 [verify_final_begins; verify_final_done]);
          [apply runs_task|].
        apply (runs_chain_cons items None a11y_postcheck_lambda_task []
                 [verify_final_begins; verify_final_done] []);
          [apply runs_task | apply runs_chain_nil].
    + apply (runs_chain_cons items None a11y_precheck_lambda_task []
               [independent_verify_begins; independent_verify_done] []);
        [apply runs_task | apply runs_chain_nil].
  - change (main_branch_history (concat (map iteration_history (seq 0 items)))
              ++ verify_branch_history)%list
      with (concat [main_branch_history
                      (concat (map iteration_history (seq 0 items)));
                    verify_branch_history ++ []])%list.
    rewrite app_nil_r. apply interleaving_concat.
Qed.
End SequentialRun.

Section GaugeTheorems.
Import Float Aws CloudWatch Quota.

(** X23: [put_quota_usage_metric] never divides by zero: for a limit of 0
    or below it sends the percentage 0.0 in place of the quotient.  It
    touches nothing but CloudWatch, the only exception it can raise is
    the OverflowError of a count or quotient beyond the floats, and when
    it returns it has sent QuotaUsage and then QuotaUsagePercentage (as
    far as CloudWatch took them) and answers for the second. *)
Theorem put_quota_usage_metric_never_divides_by_zero :
  forall (E : Aws.env) (p : CloudWatchMetricsPublisher) (api : string)
         (n L : Z) (w : Aws.world),
    exists o w',
      put_quota_usage_metric E p api n L w = (o, w') /\
      usage_items w' = usage_items w /\ sns_messages w' = sns_messages w /\
      (forall e, o = Raise e -> e = OverflowError) /\
      (forall x, of_int n = Ok x -> L <= 0 ->
         o = Ok (accepts E p "QuotaUsagePercentage") /\
         cloudwatch_data w'
         = (cloudwatch_data w
              ++ (if accepts E p "QuotaUsage"
                  then [(namespace p,
                         datum E "QuotaUsage" x "Count"
                           [("APIName", api); ("Period", "Monthly")])]
                  else [])
              ++ (if accepts E p "QuotaUsagePercentage"
                  then [(namespace p,
                         datum E "QuotaUsagePercentage" zero "Percent"
                           [("APIName", api); ("Period", "Monthly")])]
                  else []))%list).
Proof.
  intros E p api n L w. unfold put_quota_usage_metric, bind, lift_outcome.
  destruct (of_int n) as [x|e] eqn:Hx.
  2:{ eexists _, _; split; [reflexivity|].
      split; [reflexivity|]. split; [reflexivity|]. split; [|discriminate].
      intros e' [= <-]. revert Hx. unfold of_int.
      destruct (is_finite (nearest n)); [discriminate|]. now intros [= <-]. }
  destruct (put_metric_run E p "QuotaUsage" x "Count"
              [("APIName", api); ("Period", "Monthly")] w)
    as (w1 & -> & I1 & S1 & C1).
  destruct (Z.gtb_spec L 0) as [Hpos|Hnon].
  - assert (Hraise : forall e, truediv n L = Raise e -> e = OverflowError).
    { unfold truediv. destruct L as [|L|L]; [lia| |lia].
      destruct n as [|n|n]; try discriminate;
        match goal with |- context [is_finite ?q] => destruct (is_finite q) end;
        try discriminate; now intros e [= <-]. }
    destruct (truediv n L) as [q|e].
    + unfold ret.
      destruct (put_metric_run E p "QuotaUsagePercentage" (mul q (nearest 100))
                  "Percent" [("APIName", api); ("Period", "Monthly")] w1)
        as (w2 & -> & I2 & S2 & C2).
      eexists _, _; split; [reflexivity|].
      split; [congruence|]. split; [congruence|]. split; [discriminate|].
      intros x' _ HL. lia.
    + eexists _, _; split; [reflexivity|].
      split; [congruence|]. split; [congruence|]. split.
      * intros e' [= <-]. now apply Hraise.
      * intros x' _ HL. lia.
  - unfold ret.
    destruct (put_metric_run E p "QuotaUsagePercentage" zero
                "Percent" [("APIName", api); ("Period", "Monthly")] w1)
      as (w2 & -> & I2 & S2 & C2).
    eexists _, _; split; [reflexivity|].
    split; [congruence|]. split; [congruence|]. split; [discriminate|].
    intros x' [= <-] _. split; [reflexivity|].
    rewrite C2, C1, <- app_assoc. reflexivity.
Qed.
End GaugeTheorems.

Section AdmissionTheorems.
Import Float Aws CloudWatch Quota.

Lemma count_after_calls self p calls : forall w,
  count_in self p (track_all self calls w)
  = count_in self p w
    + Z.of_nat (length (filter (fun c => counted self p c) calls)).
Proof.
  induction calls as [|c calls IH]; intros w.
  - cbn. lia.
  - cbn [track_all]. rewrite IH, track_api_call_count_step.
    rewrite filter_cons. destruct (decide (counted self p c)) as [H|H].
    + apply Is_true_true in H. rewrite H. cbn [length]. lia.
    + apply Is_true_false in H. rewrite H. lia.
Qed.

(** X24: the admission check follows the ledger.  With a limit L > 0, a
    table that can be read and a quotient that stays within the floats,
    after any sequence of recorded calls [check_quota_available] answers
    True exactly while the count the period started with plus the calls
    counted since is below L, and leaves everything as it is. *)
Theorem admission_follows_ledger :
  forall (E : Aws.env) (self : QuotaMonitor) (L : Z)
         (calls : list tracked_call) (w : Aws.world),
    quota_limit self = Some L -> 0 < L ->
    usage_table self <> None -> Aws.get_item_fails E = false ->
    let n := count_in self (period_key E) w
             + Z.of_nat (length (filter (fun c => counted self (period_key E) c)
                                   calls)) in
    is_ok (truediv n L) = true ->
    check_quota_available E self (track_all self calls w)
    = (Ok (n <? L), track_all self calls w).
Proof.
  intros E self L calls w HL Hpos Ht Hget n Hdiv.
  pose proof (count_after_calls self (period_key E) calls w) as Hn.
  fold n in Hn. set (w' := track_all self calls w) in *.
  assert (Hcur : current_count E self w' = n) by exact Hn.
  rewrite <- Hcur.
  apply (check_quota_available_compares E self L w' HL); [lia|].
  cbv [get_current_usage try_except bind Aws.get_item raise get ret lift_outcome].
  destruct (usage_table self) as [t|]; [|congruence]. rewrite Hget, HL.
  unfold current_count in Hcur.
  destruct (usage_items w' !! (api_name self, period_key E)) as [i|].
  - destruct (Z.eqb_spec L 0); [lia|]. rewrite Hcur.
    destruct (truediv n L); [|discriminate].
    eexists; split; [reflexivity|]. vm_compute. reflexivity.
  - eexists; split; [reflexivity|]. vm_compute. reflexivity.
Qed.

Lemma admission_follows_ledger_witness :
  check_quota_available calm (adobe (Some 2))
    (track_all (adobe (Some 2)) one_success_one_failure (used 1))
  = (Ok (count_in (adobe (Some 2)) (period_key calm) (used 1)
         + Z.of_nat
             (length
                (filter (fun c => counted (adobe (Some 2)) (period_key calm) c)
                   one_success_one_failure)) <? 2),
     track_all (adobe (Some 2)) one_success_one_failure (used 1)).
Proof.
  apply (admission_follows_ledger calm (adobe (Some 2)) 2
           one_success_one_failure (used 1)).
  - reflexivity.
  - lia.
  - discriminate.
  - reflexivity.
  - vm_compute; reflexivity.
Defined.

(** One counted call takes a monitor at 1 of 2 to its limit: the check
    admitted before it and refuses after it. *)
Example admission_closes_at_the_limit :
  fst (check_quota_available calm (adobe (Some 2)) (used 1)) = Ok true /\
  fst (check_quota_available calm (adobe (Some 2))
         (track_all (adobe (Some 2)) one_success_one_failure (used 1)))
  = Ok false.
Proof. split; vm_compute; reflexivity. Qed.
End AdmissionTheorems.

Section RetryTheorems.
Import Approval.




End RetryTheorems.

Section FloatFacts.
Import Float.

Lemma digits2_pos_bounds p :
  2 ^ (Zpos (digits2_pos p) - 1) <= Zpos p < 2 ^ Zpos (digits2_pos p).
Proof.
  induction p as [p IH|p IH|]; cbn [digits2_pos].
  - rewrite Pos2Z.inj_succ, (Pos2Z.inj_xI p).
    replace (Z.succ (Zpos (digits2_pos p)) - 1)
      with (Z.succ (Zpos (digits2_pos p) - 1)) by lia.
    rewrite !Z.pow_succ_r by lia.
    revert IH. generalize (2 ^ (Zpos (digits2_pos p) - 1)).
    generalize (2 ^ Zpos (digits2_pos p)). intros; lia.
  - rewrite Pos2Z.inj_succ, (Pos2Z.inj_xO p).
    replace (Z.succ (Zpos (digits2_pos p)) - 1)
      with (Z.succ (Zpos (digits2_pos p) - 1)) by lia.
    rewrite !Z.pow_succ_r by lia.
    revert IH. generalize (2 ^ (Zpos (digits2_pos p) - 1)).
    generalize (2 ^ Zpos (digits2_pos p)). intros; lia.
  - cbn. lia.
Qed.

Lemma digits_of_range p k :
  2 ^ (k - 1) <= Zpos p < 2 ^ k -> Zpos (digits2_pos p) = k.
Proof.
  intros [Hlo Hhi]. pose proof (digits2_pos_bounds p) as [Dlo Dhi].
  set (d := Zpos (digits2_pos p)) in *.
  destruct (Z.lt_trichotomy d k) as [H|[H|H]]; [|assumption|].
  - assert (2 ^ d <= 2 ^ (k - 1)) by (apply Z.pow_le_mono_r; lia). lia.
  - assert (2 ^ k <= 2 ^ (d - 1)) by (apply Z.pow_le_mono_r; lia). lia.
Qed.

Lemma digits_53 p :
  4503599627370496 <= Zpos p < 9007199254740992 -> digits2_pos p = 53%positive.
Proof.
  intros H. assert (Zpos (digits2_pos p) = 53) by (apply digits_of_range; exact H).
  congruence.
Qed.

Lemma digits_54 p :
  9007199254740992 <= Zpos p < 18014398509481984 -> digits2_pos p = 54%positive.
Proof.
  intros H. assert (Zpos (digits2_pos p) = 54) by (apply digits_of_range; exact H).
  congruence.
Qed.

Lemma digits_at_most_53 p :
  Zpos p < 9007199254740992 -> 1 <= Zpos (digits2_pos p) <= 53.
Proof.
  intros H. pose proof (digits2_pos_bounds p) as [Dlo _].
  split; [lia|].
  destruct (Z.le_gt_cases (Zpos (digits2_pos p)) 53) as [|Hgt]; [assumption|].
  assert (2 ^ 53 <= 2 ^ (Zpos (digits2_pos p) - 1))
    by (apply Z.pow_le_mono_r; lia).
  change (2 ^ 53) with 9007199254740992 in *. lia.
Qed.

Lemma loc_of_record m l : loc_of_shr_record (shr_record_of_loc m l) = l.
Proof. destruct l as [|[]]; reflexivity. Qed.

Lemma round_nearest_even_step m l :
  round_nearest_even m l = m \/ round_nearest_even m l = m + 1.
Proof.
  destruct l as [|[]]; cbn; auto. destruct (Z.even m); auto.
Qed.

(** Rounding a 53-bit integer significand that needs no shift. *)
Lemma round_exact_53 (m : Z) (e : Z) :
  4503599627370496 <= m <= 9007199254740992 -> -1074 <= e -> e + 1 <= 971 ->
  exists mf ef,
    (let '(mrs, e'') := shr_fexp prec emax m e loc_Exact in
     match shr_m mrs with
     | Z0 => S754_zero false
     | Zpos p => if e'' <=? emax - prec then S754_finite false p e''
                 else S754_infinity false
     | Zneg _ => S754_nan
     end) = S754_finite false mf ef /\
    4503599627370496 <= Zpos mf < 9007199254740992 /\
    (m < 9007199254740992 -> ef = e /\ Zpos mf = m) /\
    (m = 9007199254740992 -> ef = e + 1).
Proof.
  intros Hm He Hhi. destruct m as [|p|p]; try lia.
  destruct (Z.eq_dec (Zpos p) 9007199254740992) as [Heq|Hne].
  - injection Heq as ->. exists 4503599627370496%positive, (e + 1).
    unfold shr_fexp, fexp, emin, prec, emax. cbn [Zdigits2].
    change (digits2_pos 9007199254740992) with 54%positive.
    replace (Z.max (54 + e - 53) (3 - 1024 - 53) - e) with 1 by lia.
    cbn [shr shr_record_of_loc iter_pos shr_1 shr_m].
    replace (e + 1 <=? 1024 - 53) with true by (symmetry; apply Z.leb_le; lia).
    repeat split; lia.
  - exists p, e.
    unfold shr_fexp, fexp, emin, prec, emax. cbn [Zdigits2].
    rewrite (digits_53 p) by lia.
    replace (Z.max (53 + e - 53) (3 - 1024 - 53) - e) with 0 by lia.
    cbn [shr shr_record_of_loc shr_m].
    replace (e <=? 1024 - 53) with true by (symmetry; apply Z.leb_le; lia).
    repeat split; lia.
Qed.

(** [binary_round_aux] on a quotient of 53 or 54 bits: the result is a
    normal number whose exponent is that of the quotient, plus one when
    the quotient has 54 bits, plus one when rounding carries. *)
Lemma binary_round_aux_shape (q e : Z) (l : location) :
  4503599627370496 <= q < 18014398509481984 -> -1074 <= e -> e + 2 <= 971 ->
  exists mf ef,
    binary_round_aux prec emax false q e l = S754_finite false mf ef /\
    4503599627370496 <= Zpos mf < 9007199254740992 /\
    (q < 9007199254740992 ->
     ef = e \/ (ef = e + 1 /\ q = 9007199254740991)) /\
    (9007199254740992 <= q ->
     ef = e + 1 \/ (ef = e + 2 /\ 18014398509481982 <= q)).
Proof.
  intros Hq He Hhi. destruct q as [|p|p]; try lia.
  unfold binary_round_aux.
  destruct (Z.lt_ge_cases (Zpos p) 9007199254740992) as [Hlt|Hge].
  - assert (Hfirst : shr_fexp prec emax (Zpos p) e l
                     = (shr_record_of_loc (Zpos p) l, e)).
    { unfold shr_fexp, fexp, emin, prec, emax. cbn [Zdigits2].
      rewrite (digits_53 p) by lia.
      replace (Z.max (53 + e - 53) (3 - 1024 - 53) - e) with 0 by lia.
      reflexivity. }
    rewrite Hfirst, loc_of_record.
    assert (Hm : shr_m (shr_record_of_loc (Zpos p) l) = Zpos p)
      by (destruct l as [|[]]; reflexivity).
    rewrite Hm.
    destruct (round_nearest_even_step (Zpos p) l) as [Hr|Hr]; rewrite Hr.
    + destruct (round_exact_53 (Zpos p) e) as (mf & ef & Hres & Hmf & Hsame & _);
        try lia.
      exists mf, ef. split; [exact Hres|]. split; [exact Hmf|].
      split; [|lia]. intros _. left. apply Hsame. lia.
    + destruct (round_exact_53 (Zpos p + 1) e)
        as (mf & ef & Hres & Hmf & Hsame & Hcarry); try lia.
      exists mf, ef. split; [exact Hres|]. split; [exact Hmf|].
      split; [|lia]. intros _.
      destruct (Z.eq_dec (Zpos p + 1) 9007199254740992) as [Heq|Hne].
      * right. split; [now apply Hcarry | lia].
      * left. apply Hsame. lia.
  - assert (Hhalf : exists h r,
               shr_fexp prec emax (Zpos p) e l = (h, e + 1) /\
               shr_m h = Zpos r /\
               (Zpos p = 2 * Zpos r \/ Zpos p = 2 * Zpos r + 1)).
    { unfold shr_fexp, fexp, emin, prec, emax. cbn [Zdigits2].
      rewrite (digits_54 p) by lia.
      replace (Z.max (54 + e - 53) (3 - 1024 - 53) - e) with 1 by lia.
      cbn [shr iter_pos].
      destruct p as [r|r|]; try lia.
      - eexists _, r. split; [|split; [|right; lia]];
          destruct l as [|[]]; reflexivity.
      - eexists _, r. split; [|split; [|left; lia]];
          destruct l as [|[]]; reflexivity. }
    destruct Hhalf as (h & r & Hfirst & Hm & Hr2). rewrite Hfirst, Hm.
    destruct (round_nearest_even_step (Zpos r) (loc_of_shr_record h))
      as [Hr|Hr]; rewrite Hr.
    + destruct (round_exact_53 (Zpos r) (e + 1))
        as (mf & ef & Hres & Hmf & Hsame & _); try lia.
      exists mf, ef. split; [exact Hres|]. split; [exact Hmf|].
      split; [lia|]. intros _. left. apply Hsame. lia.
    + destruct (round_exact_53 (Zpos r + 1) (e + 1))
        as (mf & ef & Hres & Hmf & Hsame & Hcarry); try lia.
      exists mf, ef. split; [exact Hres|]. split; [exact Hmf|].
      split; [lia|]. intros _.
      destruct (Z.eq_dec (Zpos r + 1) 9007199254740992) as [Heq|Hne].
      * right. split; [rewrite (Hcarry Heq); lia | lia].
      * left. apply Hsame. lia.
Qed.

Lemma quotient_at_least T b q r k :
  T = b * q + r -> 0 <= r < b -> b * k <= T -> k <= q.
Proof. intros -> Hr Hk. nia. Qed.

Lemma quotient_below T b q r k :
  T = b * q + r -> 0 <= r < b -> T < b * k -> q < k.
Proof. intros -> Hr Hk. nia. Qed.

Lemma ge_one_exponent mf ef :
  4503599627370496 <= Zpos mf ->
  ge (S754_finite false mf ef) one = true <-> -52 <= ef.
Proof.
  intros Hm. unfold ge, SFleb, SFcompare, one.
  destruct (Z.compare_spec (-52) ef) as [<-|Hlt|Hgt].
  - change (Pos.compare_cont Eq 4503599627370496 mf)
      with (4503599627370496 ?= mf)%positive.
    rewrite Pos2Z.inj_compare.
    destruct (Z.compare_spec 4503599627370496 (Zpos mf)); split; intros;
      lia || reflexivity || discriminate.
  - split; [lia | reflexivity].
  - split; [discriminate | lia].
Qed.

(** The quotient of two positive integers below 2^53 never overflows,
    and it is at least 1.0 exactly when the dividend is at least the
    divisor: rounding neither lifts a quotient below 1 to 1.0 nor drops
    one that is at least 1. *)
Lemma truediv_vs_one a b :
  0 < a < 9007199254740992 -> 0 < b < 9007199254740992 ->
  exists q, truediv a b = Ok q /\ (ge q one = true <-> b <= a).
Proof.
  intros Ha Hb. destruct a as [|pa|pa]; try lia. destruct b as [|pb|pb]; try lia.
  unfold truediv.
  change (Z.to_pos (Z.abs (Zpos pa))) with pa.
  change (Z.to_pos (Z.abs (Zpos pb))) with pb.
  change (Zpos pa <? 0) with false. change (Zpos pb <? 0) with false.
  unfold SFdiv, SFdiv_core_binary. cbn [Zdigits2 xorb].
  pose proof (digits2_pos_bounds pa) as [A1 A2].
  pose proof (digits2_pos_bounds pb) as [B1 B2].
  pose proof (digits_at_most_53 pa ltac:(lia)) as D1.
  pose proof (digits_at_most_53 pb ltac:(lia)) as D2.
  set (d1 := Zpos (digits2_pos pa)) in *.
  set (d2 := Zpos (digits2_pos pb)) in *.
  replace (Z.min (fexp prec emax (d1 + 0 - (d2 + 0))) (0 - 0))
    with (d1 - d2 - 53)
    by (unfold fexp, emin, prec, emax; lia).
  replace (0 - 0 - (d1 - d2 - 53)) with (53 - d1 + d2) by lia.
  destruct (53 - d1 + d2) as [|s|s] eqn:Hs; try lia.
  rewrite Z.shiftl_mul_pow2 by lia.
  set (S := 2 ^ Zpos s).
  assert (HS : 0 < S) by (apply Z.pow_pos_nonneg; lia).
  set (P := 2 ^ (d2 - 1)) in *.
  assert (HP : 2 ^ d2 = 2 * P).
  { unfold P. rewrite <- Z.pow_succ_r by lia. f_equal. lia. }
  assert (HA : 2 ^ (d1 - 1) * S = 9007199254740992 * P).
  { unfold S, P. change 9007199254740992 with (2 ^ 53).
    rewrite <- !Z.pow_add_r by lia. f_equal. lia. }
  assert (HA' : 2 ^ d1 = 2 * 2 ^ (d1 - 1)).
  { rewrite <- Z.pow_succ_r by lia. f_equal. lia. }
  set (T := Zpos pa * S).
  assert (HT1 : 9007199254740992 * P <= T).
  { rewrite <- HA. unfold T. apply Z.mul_le_mono_nonneg_r; lia. }
  assert (HT2 : T < 18014398509481984 * P).
  { replace (18014398509481984 * P) with (2 ^ d1 * S) by (rewrite HA'; lia).
    unfold T. apply Z.mul_lt_mono_pos_r; lia. }
  pose proof (Z_div_mod T (Zpos pb) ltac:(lia)) as Hdiv.
  destruct (Z.div_eucl T (Zpos pb)) as [q r]. destruct Hdiv as [HTq Hr].
  assert (Hq1 : 4503599627370496 <= q)
    by (apply (quotient_at_least T (Zpos pb) q r); lia).
  assert (Hq2 : q < 18014398509481984)
    by (apply (quotient_below T (Zpos pb) q r); lia).
  destruct (binary_round_aux_shape q (d1 - d2 - 53)
              (new_location (Zpos pb) r)) as (mf & ef & -> & Hmf & H53 & H54);
    try lia.
  cbn [is_finite]. eexists; split; [reflexivity|].
  rewrite (ge_one_exponent mf ef) by lia.
  assert (Hd : Zpos pb <= Zpos pa -> d2 <= d1).
  { intros Hle. destruct (Z.le_gt_cases d2 d1) as [|Hgt]; [assumption|].
    assert (2 ^ d1 <= 2 ^ (d2 - 1)) by (apply Z.pow_le_mono_r; lia).
    fold P in H. lia. }
  assert (Hd' : Zpos pa < Zpos pb -> d1 <= d2).
  { intros Hlt. destruct (Z.le_gt_cases d1 d2) as [|Hgt]; [assumption|].
    assert (2 ^ d2 <= 2 ^ (d1 - 1)) by (apply Z.pow_le_mono_r; lia).
    lia. }
  assert (HS53 : d1 = d2 -> S = 9007199254740992).
  { intros He. unfold S. replace (Zpos s) with 53 by lia. reflexivity. }
  assert (HS54 : d1 = d2 - 1 -> S = 18014398509481984).
  { intros He. unfold S. replace (Zpos s) with 54 by lia. reflexivity. }
  destruct (Z.le_gt_cases (Zpos pb) (Zpos pa)) as [Hle|Hgt].
  - split; [intros _; exact Hle|]. intros _. specialize (Hd Hle).
    destruct (Z.eq_dec d1 d2) as [He|Hne].
    + assert (9007199254740992 <= q).
      { apply (quotient_at_least T (Zpos pb) q r);
          first [lia | unfold T; rewrite (HS53 He); lia]. }
      specialize (H54 ltac:(lia)). lia.
    + destruct (Z.lt_ge_cases q 9007199254740992) as [Hq|Hq];
        [specialize (H53 Hq) | specialize (H54 Hq)]; lia.
  - split; [|lia]. intros Hef. exfalso. specialize (Hd' Hgt).
    destruct (Z.eq_dec d1 d2) as [He|Hne].
    + assert (Hq : q < 9007199254740991).
      { apply (quotient_below T (Zpos pb) q r);
          first [lia | unfold T; rewrite (HS53 He); lia]. }
      specialize (H53 ltac:(lia)). lia.
    + destruct (Z.eq_dec d1 (d2 - 1)) as [He|Hne'].
      * assert (Hq : q < 18014398509481982).
        { apply (quotient_below T (Zpos pb) q r);
            first [lia | unfold T; rewrite (HS54 He); lia]. }
        destruct (Z.lt_ge_cases q 9007199254740992) as [Hq'|Hq'];
          [specialize (H53 Hq') | specialize (H54 Hq')]; lia.
      * destruct (Z.lt_ge_cases q 9007199254740992) as [Hq'|Hq'];
          [specialize (H53 Hq') | specialize (H54 Hq')]; lia.
Qed.

Lemma truediv_ok a b :
  0 <= a < 9007199254740992 -> 0 < b < 9007199254740992 ->
  is_ok (truediv a b) = true.
Proof.
  intros Ha Hb. destruct (Z.eq_dec a 0) as [->|Hne].
  - destruct b; try lia. reflexivity.
  - destruct (truediv_vs_one a b) as (q & -> & _); [lia | lia | reflexivity].
Qed.

Lemma iter_xO p k : Zpos (Pos.iter xO p k) = Zpos p * 2 ^ Zpos k.
Proof.
  induction k as [|k IH] using Pos.peano_ind.
  - cbn [Pos.iter]. rewrite (Pos2Z.inj_xO p). change (2 ^ 1) with 2. lia.
  - rewrite Pos.iter_succ, (Pos2Z.inj_xO (Pos.iter xO p k)), IH.
    rewrite Pos2Z.inj_succ, Z.pow_succ_r by lia. lia.
Qed.

(** Integers below 2^53 convert to floats. *)
Lemma of_int_ok n : 0 <= n < 9007199254740992 -> is_ok (of_int n) = true.
Proof.
  intros Hn. unfold of_int, nearest, binary_normalize.
  destruct n as [|p|p]; try lia; [reflexivity|].
  unfold binary_round, shl_align.
  pose proof (digits2_pos_bounds p) as [B1 B2].
  pose proof (digits_at_most_53 p ltac:(lia)) as D.
  set (d := Zpos (digits2_pos p)) in *.
  replace (fexp prec emax (d + 0) - 0) with (d - 53)
    by (unfold fexp, emin, prec, emax; lia).
  replace (fexp prec emax (d + 0)) with (d - 53)
    by (unfold fexp, emin, prec, emax; lia).
  destruct (d - 53) as [|k|k] eqn:Hk; try lia.
  - assert (d = 53) by lia.
    assert (2 ^ (d - 1) = 4503599627370496) by (replace d with 53 by lia; reflexivity).
    destruct (binary_round_aux_shape (Zpos p) 0 loc_Exact)
      as (mf & ef & -> & _); try lia. reflexivity.
  - pose proof (iter_xO p k) as Hiter.
    assert (HP : 2 ^ (d - 1) * 2 ^ Zpos k = 4503599627370496).
    { change 4503599627370496 with (2 ^ 52).
      rewrite <- Z.pow_add_r by lia. f_equal. lia. }
    assert (Hpos : 0 < 2 ^ Zpos k) by (apply Z.pow_pos_nonneg; lia).
    assert (Hd : 2 ^ d = 2 * 2 ^ (d - 1)).
    { rewrite <- Z.pow_succ_r by lia. f_equal. lia. }
    assert (H1 : 4503599627370496 <= Zpos (Pos.iter xO p k)).
    { rewrite Hiter, <- HP. apply Z.mul_le_mono_nonneg_r; lia. }
    assert (H2 : Zpos (Pos.iter xO p k) < 9007199254740992).
    { rewrite Hiter.
      replace 9007199254740992 with (2 ^ d * 2 ^ Zpos k) by (rewrite Hd; lia).
      apply Z.mul_lt_mono_pos_r; lia. }
    destruct (binary_round_aux_shape (Zpos (Pos.iter xO p k)) (Z.neg k) loc_Exact)
      as (mf & ef & -> & _); try lia. reflexivity.
Qed.
End FloatFacts.

Section ExceededTheorems.
Import Float Aws CloudWatch Quota.

(** What [get_current_usage] needs to answer without ["error"]: a table
    that can be read and, under a limit, a quotient within the floats. *)
Lemma get_current_usage_without_error E self L w :
  quota_limit self = Some L -> 0 < L ->
  usage_table self <> None -> Aws.get_item_fails E = false ->
  is_ok (truediv (current_count E self w) L) = true ->
  exists info, get_current_usage E self w = (Ok info, w) /\
               info !! "error" = None.
Proof.
  intros HL Hpos Ht Hget Hdiv.
  cbv [get_current_usage try_except bind Aws.get_item raise get ret lift_outcome].
  destruct (usage_table self) as [t|]; [|congruence]. rewrite Hget, HL.
  unfold current_count in Hdiv.
  destruct (usage_items w !! (api_name self, period_key E)) as [i|].
  - destruct (Z.eqb_spec L 0); [lia|].
    destruct (truediv _ L); [|discriminate].
    eexists; split; [reflexivity|]. vm_compute. reflexivity.
  - eexists; split; [reflexivity|]. vm_compute. reflexivity.
Qed.

(** X27: the report and the admission check agree on when the quota is
    used up.  For a limit 0 < L < 2^53, a table that takes the update and
    a count that stays below 2^53, a call recorded as successful is
    reported with quota_exceeded True exactly when the new count has
    reached L (the float comparison count / L >= 1.0 is exact there),
    and [check_quota_available], asked right after it with a readable
    table, answers the opposite of that flag. *)
Theorem quota_exceeded_iff_limit_reached :
  forall (E : Aws.env) (self : QuotaMonitor) (op : string)
         (err : option string) (L : Z) (w : Aws.world),
    quota_limit self = Some L -> 0 < L < 2 ^ 53 ->
    usage_table self <> None -> Aws.update_item_fails E = false ->
    0 <= count_in self (period_key E) w < 2 ^ 53 - 1 ->
    exists r w',
      track_api_call E self op true err w = (Ok r, w') /\
      usage_count r = count_in self (period_key E) w + 1 /\
      (quota_exceeded r = true <-> L <= usage_count r) /\
      (Aws.get_item_fails E = false ->
       check_quota_available E self w' = (Ok (negb (quota_exceeded r)), w')).
Proof.
  intros E self op err L w HL HLb Ht Hup Hn.
  change (2 ^ 53) with 9007199254740992 in *.
  set (n := count_in self (period_key E) w + 1).
  destruct (truediv_vs_one n L) as (q & Hq & Hge); [unfold n; lia | lia |].
  assert (Hof : is_ok (of_int n) = true) by (apply of_int_ok; unfold n; lia).
  destruct (track_api_call_run E self op true err w)
    as (b1 & w1 & b2 & w2 & _ & _ & _ & _ & Hrun).
  assert (Hc : true && bool_decide (is_Some (usage_table self)) = true).
  { apply bool_decide_eq_true. destruct (usage_table self); [eauto | congruence]. }
  rewrite Hc in Hrun. destruct Hrun as (res & w' & r' & Hbody & Hcall).
  exists r', w'. split; [exact Hcall|].
  destruct (track_api_call_ledger E self op true err w) as (r0 & w0 & Hcall0 & Hled).
  rewrite Hcall in Hcall0. inversion Hcall0; subst r0 w0. clear Hcall0.
  rewrite Hc, Hup in Hled. cbn [negb andb] in Hled. destruct Hled as [Hitems Hcount].
  fold n in Hcount. split; [exact Hcount|].
  destruct (track_usage_run E self op true w2)
    as (n' & w3 & Hinc & res' & w'' & r'' & Hbody' & Hn' & _ & Hcases).
  rewrite Hbody in Hbody'. inversion Hbody'; subst res' w'' r''. clear Hbody'.
  assert (Hnn : n' = n) by congruence. clear Hn'. rewrite Hnn in *. clear Hnn n' Hinc.
  assert (Hforce : limit_in_force self = Some L).
  { unfold limit_in_force. rewrite HL.
    destruct (Z.eqb_spec L 0); [lia|]. destruct (Z.gtb_spec L 0); [reflexivity | lia]. }
  rewrite Hforce, Hq in Hcases.
  destruct Hcases as (_ & w4 & gauge & Hgauge & Hrest).
  destruct (put_quota_usage_metric_frames E (metrics_publisher self)
              (api_name self) n L w3) as (g' & w4' & Hg' & _ & Hgok).
  rewrite Hgauge in Hg'. inversion Hg'; subst g' w4'. clear Hg'.
  rewrite Hq in Hgok. specialize (Hgok Hof eq_refl).
  destruct gauge as [bg|e]; [|discriminate]. destruct Hrest as (Hex & _).
  assert (Hiff : quota_exceeded r' = true <-> L <= usage_count r').
  { rewrite Hex, Hcount. exact Hge. }
  split; [exact Hiff|]. intros Hget.
  assert (Hcur : current_count E self w' = n).
  { unfold current_count. rewrite Hitems, lookup_insert_eq.
    unfold n, count_in, add_usage. cbn.
    destruct (usage_items w !! (api_name self, period_key E)); reflexivity. }
  rewrite (check_quota_available_compares E self L w' HL); [|lia|].
  - rewrite Hcur. do 2 f_equal. rewrite Hcount in Hiff.
    destruct (quota_exceeded r'), (Z.ltb_spec n L); cbn; try reflexivity.
    + assert (L <= n) by now apply Hiff. lia.
    + assert (false = true) by (apply Hiff; lia). discriminate.
  - apply (get_current_usage_without_error E self L w' HL);
      [lia | assumption | assumption |].
    rewrite Hcur, Hq. reflexivity.
Qed.

Lemma quota_exceeded_iff_limit_reached_witness :
  exists r w',
    track_api_call calm (adobe (Some 2)) "ExportPDF" true None (used 1) = (Ok r, w') /\
    usage_count r = count_in (adobe (Some 2)) (period_key calm) (used 1) + 1 /\
    (quota_exceeded r = true <-> 2 <= usage_count r) /\
    (Aws.get_item_fails calm = false ->
     check_quota_available calm (adobe (Some 2)) w'
     = (Ok (negb (quota_exceeded r)), w')).
Proof.
  apply (quota_exceeded_iff_limit_reached calm (adobe (Some 2)) "ExportPDF"
           None 2 (used 1)).
  - reflexivity.
  - lia.
  - discriminate.
  - reflexivity.
  - assert (count_in (adobe (Some 2)) (period_key calm) (used 1) = 1) as ->
      by (vm_compute; reflexivity).
    lia.
Defined.
End ExceededTheorems.
